(** * Lawn-care database: data-access layer

    Shallow embedding of the data-access code of the lawn-care management
    application: the typed query layer of [query.py] over the statement
    catalog of [scripts.py], and the older [Database] class of
    [database.py] with its per-entity [Signal]s of [util.py].

    Python exceptions are an explicit [Py] result; state is passed
    explicitly.  The query layer's money amounts are kept exactly, in
    hundredths (20.00 is [2000]); the [Database] class's amounts are
    binary64 floats, as Python and SQLite hold them. *)

From Stdlib Require Import ZArith List String Ascii Bool Lia PrimFloat.
From Stdlib Require Uint63.
Import ListNotations.
Open Scope string_scope.
Open Scope Z_scope.

(** ** Python exceptions *)

Inductive PyExc : Type :=
| ValidationError (msg : string)
| TypeError (msg : string)
| OverflowError (msg : string)
| ZeroDivisionError (msg : string)
| IntegrityError (msg : string)
| OperationalError (msg : string).

(** [str(e)].  A [ValidationError] keeps the failing field and pydantic's
    reason for it; the multi-line text pydantic's [str(e)] builds around
    them (error count, model name, error type, input value, documentation
    link) is not reproduced, and no property below states the text of a
    validation error. *)
Definition exc_str (e : PyExc) : string :=
  match e with
  | ValidationError m | TypeError m | OverflowError m
  | ZeroDivisionError m | IntegrityError m | OperationalError m => m
  end.

Definition is_validation_error (e : PyExc) : bool :=
  match e with ValidationError _ => true | _ => false end.

(** A Python computation either returns or raises. *)
Inductive Py (A : Type) : Type :=
| Ret (a : A)
| Raise (e : PyExc).
Arguments Ret {A} a.
Arguments Raise {A} e.

Definition py_bind {A B} (m : Py A) (k : A -> Py B) : Py B :=
  match m with Ret a => k a | Raise e => Raise e end.

Notation "x <- m ;; k" := (py_bind m (fun x => k))
  (at level 61, m at next level, right associativity).

(** [list(map(f, xs))]: the first exception stops the loop. *)
Fixpoint map_py {A B} (f : A -> Py B) (xs : list A) : Py (list B) :=
  match xs with
  | [] => Ret []
  | x :: xs' => y <- f x ;; ys <- map_py f xs' ;; Ret (y :: ys)
  end.

(** ** SQLite values and rows *)

Inductive sqlval : Type :=
| SInt (z : Z)
| SText (s : string)
| SNull.

(** A result row as an [sqlite3.Row]: column names with their values. *)
Definition row := list (string * sqlval).

Fixpoint field (r : row) (k : string) : option sqlval :=
  match r with
  | [] => None
  | (k', v) :: r' => if String.eqb k k' then Some v else field r' k
  end.

(** Binding a Python [int] as a statement parameter: [sqlite3] refuses
    integers outside the signed 64-bit range. *)
Definition bind_int (z : Z) : Py Z :=
  if ((- 2 ^ 63 <=? z)%Z && (z <? 2 ^ 63)%Z)%bool then Ret z
  else Raise (OverflowError "Python int too large to convert to SQLite INTEGER").

Fixpoint bind_ints (zs : list Z) : Py (list Z) :=
  match zs with
  | [] => Ret []
  | z :: zs' => z' <- bind_int z ;; zs'' <- bind_ints zs' ;; Ret (z' :: zs'')
  end.

(** [LIMIT lim OFFSET off]: a negative limit means no limit, a negative
    offset counts as zero. *)
Definition limit_offset {A} (lim off : Z) (xs : list A) : list A :=
  let xs' := skipn (Z.to_nat off) xs in
  if lim <? 0 then xs' else firstn (Z.to_nat lim) xs'.

(** [COALESCE(SUM(x), 0)] over exact amounts. *)
Definition sum_Z (xs : list Z) : Z := fold_right Z.add 0 xs.

(** ** Binary64 amounts

    A Python [float] and an SQLite [REAL] are IEEE 754 binary64 numbers,
    Rocq's primitive [float] with round-to-nearest-even arithmetic. *)

(** The float of the decimal amount [c / 100], as Python reads it
    ([float('0.10')] for [c = 10]): the nearest binary64, here the
    correctly rounded quotient of two exact integers ([|c| < 2^53]). *)
Definition cents (c : Z) : float :=
  let f (n : Z) := PrimFloat.of_uint63 (Uint63.of_Z n) in
  if c <? 0 then PrimFloat.opp (PrimFloat.div (f (- c)) (f 100))
  else PrimFloat.div (f c) (f 100).

(** SQLite's [sum()] accumulator ([SumCtx]) once a [REAL] has been seen. *)
Record SumCtx := mkSumCtx { rSum : float; rErr : float }.

(** [kahanBabuskaNeumaierStep] *)
Definition kbn_step (p : SumCtx) (r : float) : SumCtx :=
  let s := p.(rSum) in
  let t := PrimFloat.add s r in
  let err := if PrimFloat.ltb (PrimFloat.abs r) (PrimFloat.abs s)
             then PrimFloat.add (PrimFloat.sub s t) r
             else PrimFloat.add (PrimFloat.sub r t) s in
  mkSumCtx t (PrimFloat.add p.(rErr) err).

(** [SUM(x)] over [REAL] values (SQLite 3.43 and later): the
    Kahan-Babuska-Neumaier sum from [0.0], in row order, with the
    compensation added at the end unless it is infinite or NaN
    ([sqlite3IsOverflow]); [NULL] over no row. *)
Definition sql_sum_real (xs : list float) : option float :=
  match xs with
  | [] => None
  | _ :: _ =>
      let p := fold_left kbn_step xs (mkSumCtx (cents 0) (cents 0)) in
      Some (if PrimFloat.is_finite p.(rErr) then PrimFloat.add p.(rSum) p.(rErr)
            else p.(rSum))
  end.

(** [COALESCE(x, 0)] *)
Definition coalesce_zero (x : option float) : float :=
  match x with Some v => v | None => cents 0 end.

(** ** Text rendering and [LIKE] *)

Fixpoint digits_of_nat (fuel : nat) (n : Z) (acc : string) : string :=
  match fuel with
  | O => acc
  | S fuel' =>
      let d := ascii_of_nat (48 + Z.to_nat (n mod 10)) in
      if n <? 10 then String d acc
      else digits_of_nat fuel' (n / 10) (String d acc)
  end.

(** Decimal text of an integer, as SQLite renders an INTEGER value. *)
Definition Z_text (z : Z) : string :=
  if z <? 0 then "-" ++ digits_of_nat 64 (- z) ""
  else digits_of_nat 64 z "".

(** Text of a DECIMAL amount kept in hundredths: a whole amount is stored
    as an INTEGER (NUMERIC affinity), any other as a REAL printed without
    trailing zeros. *)
Definition money_text (c : Z) : string :=
  let a := Z.abs c in
  let sign := if c <? 0 then "-" else "" in
  let whole := Z_text (a / 100) in
  let cents := a mod 100 in
  if cents =? 0 then sign ++ whole
  else if cents mod 10 =? 0 then sign ++ whole ++ "." ++ Z_text (cents / 10)
  else sign ++ whole ++ "." ++ (if cents <? 10 then "0" else "") ++ Z_text cents.

Definition ascii_lower (c : ascii) : ascii :=
  let n := nat_of_ascii c in
  if (Nat.leb 65 n && Nat.leb n 90)%bool then ascii_of_nat (n + 32) else c.

Fixpoint string_lower (s : string) : string :=
  match s with
  | EmptyString => EmptyString
  | String c s' => String (ascii_lower c) (string_lower s')
  end.

(** SQLite [LIKE] without an ESCAPE clause: [%] matches any run, [_] any
    one character, other characters match ignoring ASCII case. *)
Fixpoint like_match (p s : string) : bool :=
  match p with
  | EmptyString => match s with EmptyString => true | _ => false end
  | String c p' =>
      if Ascii.eqb c "%"%char then
        (fix go (t : string) : bool :=
           like_match p' t ||
           match t with EmptyString => false | String _ t' => go t' end) s
      else if Ascii.eqb c "_"%char then
        match s with EmptyString => false | String _ s' => like_match p' s' end
      else
        match s with
        | EmptyString => false
        | String d s' => Ascii.eqb (ascii_lower c) (ascii_lower d) && like_match p' s'
        end
  end.

(** [f"%{query}%"] *)
Definition like_pattern (q : string) : string := "%" ++ q ++ "%".

(** ** Record validation (pydantic models of [schema.py])

    A model is built as [Model( **row)]: each field is looked up by name
    and checked against its declared type; a failed check raises
    [ValidationError].  Extra columns are ignored. *)

Definition invalid {A} (k what : string) : Py A :=
  Raise (ValidationError (k ++ ": Input should be a valid " ++ what)).

Definition v_int (r : row) (k : string) : Py Z :=
  match field r k with Some (SInt z) => Ret z | _ => invalid k "integer" end.

(** [str] fields: pydantic accepts no integer for a [str]. *)
Definition v_str (r : row) (k : string) : Py string :=
  match field r k with Some (SText s) => Ret s | _ => invalid k "string" end.

(** [bool] fields accept the integers 0 and 1. *)
Definition v_bool (r : row) (k : string) : Py bool :=
  match field r k with
  | Some (SInt 0) => Ret false
  | Some (SInt 1) => Ret true
  | _ => invalid k "boolean"
  end.

(** [float] fields holding amounts.  The query layer keeps a
    [DECIMAL(10, 2)] amount as its exact number of hundredths ([SInt 2000]
    for 20.00); SQLite stores it as an INTEGER when whole and as a REAL
    otherwise, and the float rounding of REAL amounts, and of their [SUM],
    is not modelled in the query layer. *)
Definition v_money (r : row) (k : string) : Py Z :=
  match field r k with Some (SInt z) => Ret z | _ => invalid k "number" end.

(** [date] fields, kept as their ISO text. *)
Definition v_date (r : row) (k : string) : Py string := v_str r k.

Fixpoint split_at (c : ascii) (s : string) : option (string * string) :=
  match s with
  | EmptyString => None
  | String d s' =>
      if Ascii.eqb c d then Some (EmptyString, s')
      else match split_at c s' with
           | Some (l, r) => Some (String d l, r)
           | None => None
           end
  end.

(** Python's [str.isspace] on the characters of Latin-1. *)
Definition py_isspace (c : ascii) : bool :=
  let n := nat_of_ascii c in
  (Nat.leb 9 n && Nat.leb n 13) || (Nat.leb 28 n && Nat.leb n 32) ||
  Nat.eqb n 133 || Nat.eqb n 160.

Fixpoint drop_space (cs : list ascii) : list ascii :=
  match cs with
  | c :: cs' => if py_isspace c then drop_space cs' else cs
  | [] => []
  end.

(** [str.strip()] *)
Definition py_strip (s : string) : string :=
  string_of_list_ascii
    (rev (drop_space (rev (drop_space (list_ascii_of_string s))))).

Fixpoint str_mem (c : ascii) (s : string) : bool :=
  match s with
  | EmptyString => false
  | String d s' => Ascii.eqb c d || str_mem c s'
  end.

Fixpoint str_forall (f : ascii -> bool) (s : string) : bool :=
  match s with
  | EmptyString => true
  | String c s' => f c && str_forall f s'
  end.

(** [s.split(c)] *)
Fixpoint split_on (c : ascii) (s : string) : list string :=
  match s with
  | EmptyString => [EmptyString]
  | String d s' =>
      if Ascii.eqb c d then EmptyString :: split_on c s'
      else match split_on c s' with
           | w :: ws => String d w :: ws
           | [] => [String d EmptyString]
           end
  end.

(** [s.endswith(suf)] *)
Definition ends_with (suf s : string) : bool :=
  let n := String.length s in
  let k := String.length suf in
  Nat.leb k n && String.eqb (substring (n - k) k s) suf.

Definition is_ascii_letter (c : ascii) : bool :=
  let n := nat_of_ascii c in
  (Nat.leb 65 n && Nat.leb n 90) || (Nat.leb 97 n && Nat.leb n 122).

Definition is_ascii_digit (c : ascii) : bool :=
  let n := nat_of_ascii c in Nat.leb 48 n && Nat.leb n 57.

(** email_validator's [ATEXT]: the characters of an unquoted local part
    besides the dots. *)
Definition is_atext (c : ascii) : bool :=
  is_ascii_letter c || is_ascii_digit c || str_mem c "!#$%&'*+-/=?^_`{|}~".

(** [DOT_ATOM_TEXT.match(local)] and [len(local) <= 64]. *)
Definition local_part_ok (l : string) : bool :=
  Nat.leb (String.length l) 64 &&
  forallb (fun w => negb (String.eqb w "") && str_forall is_atext w) (split_on "." l).

(** A label of the lower-cased domain: letters, digits and hyphens, not
    empty, no hyphen at either end, no [--] in the third and fourth
    positions (email_validator's R-LDH check and idna's [check_hyphen_ok];
    a Punycode [xn--] label, which idna would decode, is refused here),
    at most 63 characters. *)
Definition label_ok (w : string) : bool :=
  negb (String.eqb w "") &&
  str_forall (fun c => is_ascii_letter c || is_ascii_digit c || Ascii.eqb c "-"%char) w &&
  negb (String.eqb (substring 0 1 w) "-") &&
  negb (ends_with "-" w) &&
  negb (String.eqb (substring 2 2 w) "--") &&
  Nat.leb (String.length w) 63.

(** email_validator's [SPECIAL_USE_DOMAIN_NAMES]. *)
Definition special_use_domain_names : list string :=
  ["arpa"; "invalid"; "local"; "localhost"; "onion"; "test"].

Definition last_char_letter (s : string) : bool :=
  match String.get (String.length s - 1) s with
  | Some c => is_ascii_letter c
  | None => false
  end.

(** [validate_email_domain_name] with [globally_deliverable] and no test
    environment, on the lower-cased domain: dot-separated labels, a
    period, at most 253 characters, a top-level domain ending in a letter,
    no special-use name. *)
Definition domain_ok (d : string) : bool :=
  forallb label_ok (split_on "." d) &&
  str_mem "."%char d &&
  Nat.leb (String.length d) 253 &&
  last_char_letter d &&
  negb (existsb (fun n => String.eqb d n || ends_with ("." ++ n) d)
          special_use_domain_names).

(** RFC 2142's mailbox names, which email_validator lower-cases in the
    local part ([CASE_INSENSITIVE_MAILBOX_NAMES]). *)
Definition case_insensitive_mailbox_names : list string :=
  ["info"; "marketing"; "sales"; "support"; "abuse"; "noc"; "security";
   "postmaster"; "hostmaster"; "usenet"; "news"; "webmaster"; "www"; "uucp"; "ftp"].

(** [EmailStr]: pydantic's [validate_email], then email_validator's
    [validate_email(email, check_deliverability=False)] with its defaults,
    for addresses in ASCII; the value is [normalized].  pydantic refuses
    more than 2048 characters and strips the value; email_validator splits
    it at its first [@], checks the local part as a dot-atom and the
    domain as a host name, limits the address to 254 characters, and
    normalises by lower-casing the domain and an RFC 2142 mailbox name.  Left out, and refused here: a
    value with [<] (pydantic's [Name <address>] form, which it may accept),
    a quoted local part, and characters outside ASCII (internationalised
    addresses, which email_validator may accept). *)
Definition validate_email (value : string) : option string :=
  if Nat.ltb 2048 (String.length value) then None else
  if str_mem "<"%char value then None else
  let email := py_strip value in
  if str_mem (ascii_of_nat 34) email then None else
  match split_at "@"%char email with
  | None => None
  | Some (local, domain) =>
      let d := string_lower domain in
      let l := if existsb (String.eqb (string_lower local)) case_insensitive_mailbox_names
               then string_lower local else local in
      let normalized := l ++ "@" ++ d in
      if local_part_ok local && domain_ok d && Nat.leb (String.length normalized) 254
      then Some normalized else None
  end.

Definition v_email (r : row) (k : string) : Py string :=
  match field r k with
  | Some (SText s) =>
      match validate_email s with
      | Some e => Ret e
      | None => Raise (ValidationError (k ++ ": value is not a valid email address"))
      end
  | _ => invalid k "string"
  end.

Module Person.
Record t := mk {
  id : Z; username : string; first_name : string; last_name : string;
  email : string; phone_number : string; is_employee : bool;
  hashed_password : string }.
End Person.

Module Property.
Record t := mk {
  id : Z; street_address : string; city : string; state : string;
  post_code : string }.
End Property.

Module Booking.
Record t := mk { id : Z; person_id : Z; property_id : Z; booking_date : string }.
End Booking.

Module Service.
Record t := mk { id : string; description : string; price : Z }.
End Service.

Module BookingService.
Record t := mk {
  id : Z; booking_id : Z; service_id : string; duration : Z; completed : bool }.
End BookingService.

Module Payment.
Record t := mk { id : Z; booking_id : Z; amount : Z; payment_date : string }.
End Payment.

Record PaymentTotals := mkPaymentTotals { total_amount : Z; total_count : Z }.
Record BookingCost := mkBookingCost { total : Z }.

Definition Person_of (r : row) : Py Person.t :=
  id <- v_int r "id" ;; username <- v_str r "username" ;;
  first_name <- v_str r "first_name" ;; last_name <- v_str r "last_name" ;;
  email <- v_email r "email" ;; phone_number <- v_str r "phone_number" ;;
  is_employee <- v_bool r "is_employee" ;;
  hashed_password <- v_str r "hashed_password" ;;
  Ret (Person.mk id username first_name last_name email phone_number
         is_employee hashed_password).

Definition Property_of (r : row) : Py Property.t :=
  id <- v_int r "id" ;; street_address <- v_str r "street_address" ;;
  city <- v_str r "city" ;; state <- v_str r "state" ;;
  post_code <- v_str r "post_code" ;;
  Ret (Property.mk id street_address city state post_code).

Definition Booking_of (r : row) : Py Booking.t :=
  id <- v_int r "id" ;; person_id <- v_int r "person_id" ;;
  property_id <- v_int r "property_id" ;;
  booking_date <- v_date r "booking_date" ;;
  Ret (Booking.mk id person_id property_id booking_date).

(** [Service] overrides [id] with a [str]. *)
Definition Service_of (r : row) : Py Service.t :=
  id <- v_str r "id" ;; description <- v_str r "description" ;;
  price <- v_money r "price" ;;
  Ret (Service.mk id description price).

Definition BookingService_of (r : row) : Py BookingService.t :=
  id <- v_int r "id" ;; booking_id <- v_int r "booking_id" ;;
  service_id <- v_str r "service_id" ;; duration <- v_int r "duration" ;;
  completed <- v_bool r "completed" ;;
  Ret (BookingService.mk id booking_id service_id duration completed).

Definition Payment_of (r : row) : Py Payment.t :=
  id <- v_int r "id" ;; booking_id <- v_int r "booking_id" ;;
  amount <- v_money r "amount" ;; payment_date <- v_date r "payment_date" ;;
  Ret (Payment.mk id booking_id amount payment_date).

Definition PaymentTotals_of (r : row) : Py PaymentTotals :=
  a <- v_money r "total_amount" ;; c <- v_int r "total_count" ;;
  Ret (mkPaymentTotals a c).

Definition BookingCost_of (r : row) : Py BookingCost :=
  t <- v_money r "total" ;; Ret (mkBookingCost t).

(** [passthrough( *args, **kwargs)]: rows come as keyword arguments only,
    so [args] is empty and the result is [None]. *)
Definition passthrough (r : row) : Py unit := Ret tt.

(** [extract_count_int(count)]: exactly one keyword argument, [count]. *)
Definition extract_count_int (r : row) : Py sqlval :=
  match r with
  | [(k, v)] =>
      if String.eqb k "count" then Ret v
      else Raise (TypeError ("extract_count_int() got an unexpected keyword argument '" ++ k ++ "'"))
  | [] => Raise (TypeError "extract_count_int() missing 1 required positional argument: 'count'")
  | _ => Raise (TypeError "extract_count_int() got an unexpected keyword argument")
  end.

(** The builtin [int( **row)]: [int] takes no keyword argument but [base],
    and [base] alone is refused too. *)
Definition py_int (r : row) : Py Z :=
  match r with
  | [] => Ret 0
  | (k, _) :: _ =>
      if String.eqb k "base" then Raise (TypeError "int() missing string argument")
      else Raise (TypeError ("'" ++ k ++ "' is an invalid keyword argument for int()"))
  end.

(** ** Tables of the query layer ([scripts.CREATE_TABLES])

    Rows are kept in rowid order, the order a plain [SELECT] returns
    them. *)

Module PersonRow.
Record t := mk {
  id : Z; username : string; first_name : string; last_name : string;
  email : string; phone_number : string; is_employee : Z;
  hashed_password : string }.
End PersonRow.

(** [BookingService.service_id] is declared [INTEGER]: a text that reads
    as an integer is stored as that integer. *)
Module BookingServiceRow.
Record t := mk {
  id : Z; booking_id : Z; service_id : sqlval; duration : Z; completed : Z }.
End BookingServiceRow.

Record DB := mkDB {
  persons : list PersonRow.t;
  properties : list Property.t;
  bookings : list Booking.t;
  services : list Service.t;
  booking_services : list BookingServiceRow.t;
  payments : list Payment.t;
  person_seq : Z;
  booking_service_seq : Z;
  payment_seq : Z;
  (** times [database_updated] was raised *)
  updates : nat }.

Definition set_persons (db : DB) (ps : list PersonRow.t) (seq : Z) : DB :=
  mkDB ps db.(properties) db.(bookings) db.(services) db.(booking_services)
    db.(payments) seq db.(booking_service_seq) db.(payment_seq) db.(updates).

Definition set_services (db : DB) (ss : list Service.t) : DB :=
  mkDB db.(persons) db.(properties) db.(bookings) ss db.(booking_services)
    db.(payments) db.(person_seq) db.(booking_service_seq) db.(payment_seq)
    db.(updates).

Definition set_booking_services (db : DB) (bs : list BookingServiceRow.t) (seq : Z) : DB :=
  mkDB db.(persons) db.(properties) db.(bookings) db.(services) bs
    db.(payments) db.(person_seq) seq db.(payment_seq) db.(updates).

Definition set_payments (db : DB) (ps : list Payment.t) (seq : Z) : DB :=
  mkDB db.(persons) db.(properties) db.(bookings) db.(services)
    db.(booking_services) ps db.(person_seq) db.(booking_service_seq) seq
    db.(updates).

Definition notify (db : DB) : DB :=
  mkDB db.(persons) db.(properties) db.(bookings) db.(services)
    db.(booking_services) db.(payments) db.(person_seq)
    db.(booking_service_seq) db.(payment_seq) (S db.(updates)).

Definition person_sql (p : PersonRow.t) : row :=
  [("id", SInt p.(PersonRow.id)); ("username", SText p.(PersonRow.username));
   ("first_name", SText p.(PersonRow.first_name));
   ("last_name", SText p.(PersonRow.last_name));
   ("email", SText p.(PersonRow.email));
   ("phone_number", SText p.(PersonRow.phone_number));
   ("is_employee", SInt p.(PersonRow.is_employee));
   ("hashed_password", SText p.(PersonRow.hashed_password))].

Definition property_sql (p : Property.t) : row :=
  [("id", SInt p.(Property.id)); ("street_address", SText p.(Property.street_address));
   ("city", SText p.(Property.city)); ("state", SText p.(Property.state));
   ("post_code", SText p.(Property.post_code))].

Definition booking_sql (b : Booking.t) : row :=
  [("id", SInt b.(Booking.id)); ("person_id", SInt b.(Booking.person_id));
   ("property_id", SInt b.(Booking.property_id));
   ("booking_date", SText b.(Booking.booking_date))].

Definition service_sql (s : Service.t) : row :=
  [("id", SText s.(Service.id)); ("description", SText s.(Service.description));
   ("price", SInt s.(Service.price))].

Definition booking_service_sql (b : BookingServiceRow.t) : row :=
  [("id", SInt b.(BookingServiceRow.id));
   ("booking_id", SInt b.(BookingServiceRow.booking_id));
   ("service_id", b.(BookingServiceRow.service_id));
   ("duration", SInt b.(BookingServiceRow.duration));
   ("completed", SInt b.(BookingServiceRow.completed))].

Definition payment_sql (p : Payment.t) : row :=
  [("id", SInt p.(Payment.id)); ("booking_id", SInt p.(Payment.booking_id));
   ("amount", SInt p.(Payment.amount));
   ("payment_date", SText p.(Payment.payment_date))].

Definition digit_val (c : ascii) : option Z :=
  let n := nat_of_ascii c in
  if (Nat.leb 48 n && Nat.leb n 57)%bool then Some (Z.of_nat n - 48) else None.

Fixpoint parse_digits (s : string) (acc : Z) : option Z :=
  match s with
  | EmptyString => Some acc
  | String c s' =>
      match digit_val c with
      | Some d => parse_digits s' (acc * 10 + d)
      | None => None
      end
  end.

(** INTEGER (or NUMERIC) affinity applied to a text value, for the texts
    made of an optional [-] and decimal digits: they become an INTEGER
    (SQLite stores one beyond the 64-bit range as a REAL instead, which is
    not modelled).  SQLite also converts other numeric texts (a [+] sign, a
    decimal point or an exponent, surrounding spaces), to INTEGER when the
    value is integral and to REAL otherwise; those are not modelled and
    stay text here. *)
Definition integer_affinity (s : string) : sqlval :=
  match s with
  | EmptyString => SText s
  | String "-" ((String _ _) as s') =>
      match parse_digits s' 0 with Some z => SInt (- z) | None => SText s end
  | _ => match parse_digits s 0 with Some z => SInt z | None => SText s end
  end.

(** Text of a value, as [LIKE] sees it. *)
Definition sql_text (v : sqlval) : string :=
  match v with SInt z => Z_text z | SText s => s | SNull => "" end.

Definition likes (q : string) (cols : list string) : bool :=
  existsb (like_match (like_pattern q)) cols.

(** Stable sort on an integer key, for [ORDER BY completed ASC]. *)
Fixpoint insert_by {A} (key : A -> Z) (x : A) (xs : list A) : list A :=
  match xs with
  | [] => [x]
  | y :: ys => if key x <? key y then x :: y :: ys else y :: insert_by key x ys
  end.

Definition sort_by {A} (key : A -> Z) (xs : list A) : list A :=
  fold_right (insert_by key) [] (rev xs).

(** ** The statement catalog ([scripts.py]) *)

Inductive stmt : Type :=
| CREATE_PERSON (username first_name last_name email phone_number hashed_password : string)
| DELETE_PERSON (person_id : Z)
| GET_PERSON_BY_ID (person_id : Z)
| LOGIN_PERSON (username hashed_password : string)
| GET_PERSON_PAGE (limit offset : Z)
| SEARCH_PERSONS (query : string) (limit offset : Z)
| GET_PROPERTY_PAGE (limit offset : Z)
| SEARCH_PROPERTIES (query : string) (limit offset : Z)
| GET_BOOKING_PAGE (limit offset : Z)
| SEARCH_BOOKINGS (query : string) (limit offset : Z)
| CREATE_SERVICE (service_id description : string) (price : Z)
| GET_SERVICE_PAGE (limit offset : Z)
| SEARCH_SERVICES (query : string) (limit offset : Z)
| GET_BOOKING_COST (booking_id : Z)
| CREATE_BOOKING_SERVICE (booking_id : Z) (service_id : string) (duration : Z)
| GET_SERVICE_PAGE_BY_BOOKING (booking_id limit offset : Z)
| SEARCH_SERVICES_BY_BOOKING (booking_id : Z) (query : string) (limit offset : Z)
| CREATE_PAYMENT (booking_id amount : Z) (payment_date : string)
| GET_PAYMENT_COUNT (booking_id : Z)
| GET_PAYMENT_PAGE (booking_id limit offset : Z)
| SEARCH_PAYMENTS (booking_id : Z) (query : string) (limit offset : Z)
| GET_PAYMENT_TOTALS_BY_BOOKING (booking_id : Z).

(** What one statement yields: the new state, the result rows, the last
    inserted id of an insert, and the row count ([-1] for a query). *)
Definition outcome := (DB * list row * option Z * Z)%type.

Definition rows_of (db : DB) (rs : list row) : Py outcome := Ret (db, rs, None, -1).

Definition page {A} (sql : A -> row) (db : DB) (limit offset : Z) (xs : list A) : Py outcome :=
  l <- bind_int limit ;; o <- bind_int offset ;;
  rows_of db (map sql (limit_offset l o xs)).

Definition person_matches (q : string) (p : PersonRow.t) : bool :=
  likes q [p.(PersonRow.first_name); p.(PersonRow.last_name);
           p.(PersonRow.email); p.(PersonRow.phone_number)].

Definition property_matches (q : string) (p : Property.t) : bool :=
  likes q [p.(Property.street_address); p.(Property.city);
           p.(Property.state); p.(Property.post_code)].

Definition booking_matches (db : DB) (q : string) (b : Booking.t) : bool :=
  likes q [b.(Booking.booking_date)]
  || existsb (fun p => (p.(PersonRow.id) =? b.(Booking.person_id)) && person_matches q p)
       db.(persons)
  || existsb (fun p => (p.(Property.id) =? b.(Booking.property_id)) && property_matches q p)
       db.(properties).

Definition service_matches (q : string) (s : Service.t) : bool :=
  likes q [s.(Service.id); s.(Service.description); money_text s.(Service.price)].

(** [BookingService.service_id = Service.id]: the text column's value is
    compared as the integer column's affinity converts it. *)
Definition service_key_eq (v : sqlval) (sid : string) : bool :=
  match v, integer_affinity sid with
  | SInt a, SInt b => a =? b
  | SText a, SText b => String.eqb a b
  | _, _ => false
  end.

Definition services_of_booking (db : DB) (b : Z) : list BookingServiceRow.t :=
  filter (fun r => r.(BookingServiceRow.booking_id) =? b) db.(booking_services).

(** [SUM(Service.price)] over [BookingService INNER JOIN Service] for one
    booking. *)
Definition joined_prices (db : DB) (b : Z) : list Z :=
  flat_map (fun r =>
    flat_map (fun s =>
      if service_key_eq r.(BookingServiceRow.service_id) s.(Service.id)
      then [s.(Service.price)] else [])
      db.(services))
    (services_of_booking db b).

Definition payments_of_booking (db : DB) (b : Z) : list Payment.t :=
  filter (fun p => p.(Payment.booking_id) =? b) db.(payments).

Definition run_stmt (st : stmt) (db : DB) : Py outcome :=
  match st with
  | CREATE_PERSON username first_name last_name email phone_number hashed_password =>
      if existsb (fun p => String.eqb p.(PersonRow.username) username) db.(persons)
      then Raise (IntegrityError "UNIQUE constraint failed: Person.username")
      else if existsb (fun p => String.eqb p.(PersonRow.email) email) db.(persons)
      then Raise (IntegrityError "UNIQUE constraint failed: Person.email")
      else
        let id := db.(person_seq) + 1 in
        let p := PersonRow.mk id username first_name last_name email phone_number 0
                   hashed_password in
        Ret (set_persons db (db.(persons) ++ [p]) id, [], Some id, 1)
  | DELETE_PERSON person_id =>
      i <- bind_int person_id ;;
      let gone := filter (fun p => p.(PersonRow.id) =? i) db.(persons) in
      if existsb (fun b => b.(Booking.person_id) =? i) db.(bookings) && negb (Nat.eqb (List.length gone) 0)
      then Raise (IntegrityError "FOREIGN KEY constraint failed")
      else Ret (set_persons db (filter (fun p => negb (p.(PersonRow.id) =? i)) db.(persons))
                  db.(person_seq), [], None, Z.of_nat (List.length gone))
  | GET_PERSON_BY_ID person_id =>
      i <- bind_int person_id ;;
      rows_of db (map person_sql (filter (fun p => p.(PersonRow.id) =? i) db.(persons)))
  | LOGIN_PERSON username hashed_password =>
      rows_of db (map person_sql
        (filter (fun p => String.eqb p.(PersonRow.username) username
                          && String.eqb p.(PersonRow.hashed_password) hashed_password)
           db.(persons)))
  | GET_PERSON_PAGE limit offset => page person_sql db limit offset db.(persons)
  | SEARCH_PERSONS q limit offset =>
      page person_sql db limit offset (filter (person_matches q) db.(persons))
  | GET_PROPERTY_PAGE limit offset => page property_sql db limit offset db.(properties)
  | SEARCH_PROPERTIES q limit offset =>
      page property_sql db limit offset (filter (property_matches q) db.(properties))
  | GET_BOOKING_PAGE limit offset => page booking_sql db limit offset db.(bookings)
  | SEARCH_BOOKINGS q limit offset =>
      page booking_sql db limit offset (filter (booking_matches db q) db.(bookings))
  | CREATE_SERVICE service_id description price =>
      if existsb (fun s => String.eqb s.(Service.id) service_id) db.(services)
      then Raise (IntegrityError "UNIQUE constraint failed: Service.id")
      else (** the implicit rowid: no statement here deletes a service *)
        Ret (set_services db (db.(services) ++ [Service.mk service_id description price]),
                [], Some (Z.of_nat (List.length db.(services)) + 1), 1)
  | GET_SERVICE_PAGE limit offset => page service_sql db limit offset db.(services)
  | SEARCH_SERVICES q limit offset =>
      page service_sql db limit offset (filter (service_matches q) db.(services))
  | GET_BOOKING_COST booking_id =>
      b <- bind_int booking_id ;;
      rows_of db [[("total", SInt (sum_Z (joined_prices db b)))]]
  | CREATE_BOOKING_SERVICE booking_id service_id duration =>
      b <- bind_int booking_id ;; d <- bind_int duration ;;
      let sv := integer_affinity service_id in
      (** the foreign keys: the stored [service_id] is looked up in
          [Service.id] with the parent column's TEXT affinity applied *)
      if negb (existsb (fun x => x.(Booking.id) =? b) db.(bookings))
         || negb (existsb (fun s => String.eqb s.(Service.id) (sql_text sv)) db.(services))
      then Raise (IntegrityError "FOREIGN KEY constraint failed")
      else
        let id := db.(booking_service_seq) + 1 in
        let r := BookingServiceRow.mk id b sv d 0 in
        Ret (set_booking_services db (db.(booking_services) ++ [r]) id, [], Some id, 1)
  | GET_SERVICE_PAGE_BY_BOOKING booking_id limit offset =>
      b <- bind_int booking_id ;;
      page booking_service_sql db limit offset
        (sort_by BookingServiceRow.completed (services_of_booking db b))
  | SEARCH_SERVICES_BY_BOOKING booking_id q limit offset =>
      b <- bind_int booking_id ;;
      page booking_service_sql db limit offset
        (filter (fun r => likes q [sql_text r.(BookingServiceRow.service_id);
                                   Z_text r.(BookingServiceRow.duration)])
           (services_of_booking db b))
  | CREATE_PAYMENT booking_id amount payment_date =>
      b <- bind_int booking_id ;;
      if negb (existsb (fun x => x.(Booking.id) =? b) db.(bookings))
      then Raise (IntegrityError "FOREIGN KEY constraint failed")
      else
        let id := db.(payment_seq) + 1 in
        Ret (set_payments db (db.(payments) ++ [Payment.mk id b amount payment_date]) id,
             [], Some id, 1)
  | GET_PAYMENT_COUNT booking_id =>
      b <- bind_int booking_id ;;
      rows_of db [[("count", SInt (Z.of_nat (List.length (payments_of_booking db b))))]]
  | GET_PAYMENT_PAGE booking_id limit offset =>
      b <- bind_int booking_id ;;
      page payment_sql db limit offset (payments_of_booking db b)
  | SEARCH_PAYMENTS _ _ _ _ =>
      (** [Payment] has no [booking_date] column: preparing fails. *)
      Raise (OperationalError "no such column: booking_date")
  | GET_PAYMENT_TOTALS_BY_BOOKING booking_id =>
      b <- bind_int booking_id ;;
      let ps := payments_of_booking db b in
      rows_of db [[("total_amount", SInt (sum_Z (map Payment.amount ps)));
                   ("total_count", SInt (Z.of_nat (List.length ps)))]]
  end.

(** ** The execution shim *)

Record ShimResult := mkShimResult {
  sr_error : option string; sr_data : list row; sr_lastrowid : option Z }.

(** Modelled from the spec: [database.execute] and [database.database_updated],
    which [query.py] and [ui.py] use, are not in src/ (the [database.py]
    there is the older [Database] class).  Spec 4.2: the shim executes one
    statement, commits, and returns an optional error message (the text of
    the exception), the result rows and, for an insert, the last inserted
    id; any exception is caught and returned, never raised.  Spec 4.4: on
    success with affected rows it raises the process-wide change signal. *)
Definition execute (script : stmt) (db : DB) : DB * ShimResult :=
  match run_stmt script db with
  | Ret (db', data, lastrowid, rowcount) =>
      (if 0 <? rowcount then notify db' else db',
       mkShimResult None data lastrowid)
  | Raise e => (db, mkShimResult (Some (exc_str e)) [] None)
  end.

(** [query.Result] *)
Record Result (T : Type) := mkResult {
  error : option string; value : list T; lastrowid : option Z }.
Arguments mkResult {T} error value lastrowid.
Arguments error {T} r.
Arguments value {T} r.
Arguments lastrowid {T} r.

(** A query-layer function: it runs on the database and returns its
    envelope, unless an exception escapes. *)
Definition Query (T : Type) := DB -> Py (DB * Result T).

(** [query.__execute]: map every row through [transformer( **row)]; only
    a pydantic [ValidationError] is caught. *)
Definition __execute {T} (transformer : row -> Py T) (script : stmt) : Query T :=
  fun db =>
    let (db', result) := execute script db in
    match map_py transformer result.(sr_data) with
    | Ret new_data =>
        Ret (db', mkResult result.(sr_error) new_data result.(sr_lastrowid))
    | Raise e =>
        if is_validation_error e then Ret (db', mkResult (Some (exc_str e)) [] None)
        else Raise e
    end.

(** ** Query functions ([query.py]) *)

Definition create_person (username first_name last_name email phone_number
                          hashed_password : string) : Query Person.t :=
  __execute Person_of
    (CREATE_PERSON username first_name last_name email phone_number hashed_password).



Definition login_person (username hashed_password : string) : Query Person.t :=
  __execute Person_of (LOGIN_PERSON username hashed_password).

Definition get_person_page (offset limit : Z) : Query Person.t :=
  __execute Person_of (GET_PERSON_PAGE limit offset).

Definition search_persons (query : string) (offset limit : Z) : Query Person.t :=
  if String.eqb query "" then get_person_page offset limit
  else __execute Person_of (SEARCH_PERSONS query limit offset).

Definition get_property_page (offset limit : Z) : Query Property.t :=
  __execute Property_of (GET_PROPERTY_PAGE limit offset).

Definition search_properties (query : string) (offset limit : Z) : Query Property.t :=
  if String.eqb query "" then get_property_page offset limit
  else __execute Property_of (SEARCH_PROPERTIES query limit offset).

Definition get_booking_page (offset limit : Z) : Query Booking.t :=
  __execute Booking_of (GET_BOOKING_PAGE limit offset).

Definition search_bookings (query : string) (offset limit : Z) : Query Booking.t :=
  if String.eqb query "" then get_booking_page offset limit
  else __execute Booking_of (SEARCH_BOOKINGS query limit offset).

Definition create_service (id description : string) (price : Z) : Query Service.t :=
  __execute Service_of (CREATE_SERVICE id description price).

Definition get_service_page (offset limit : Z) : Query Service.t :=
  __execute Service_of (GET_SERVICE_PAGE limit offset).

Definition search_services (query : string) (offset limit : Z) : Query Service.t :=
  if String.eqb query "" then get_service_page offset limit
  else __execute Service_of (SEARCH_SERVICES query limit offset).

Definition get_booking_cost (booking_id : Z) : Query BookingCost :=
  __execute BookingCost_of (GET_BOOKING_COST booking_id).

Definition create_booking_service (booking_id : Z) (service_id : string) (duration : Z)
  : Query BookingService.t :=
  __execute BookingService_of (CREATE_BOOKING_SERVICE booking_id service_id duration).

Definition get_service_page_by_booking (booking_id offset limit : Z)
  : Query BookingService.t :=
  __execute BookingService_of (GET_SERVICE_PAGE_BY_BOOKING booking_id limit offset).

Definition search_services_by_booking (booking_id : Z) (query : string) (offset limit : Z)
  : Query BookingService.t :=
  if String.eqb query "" then get_service_page_by_booking booking_id offset limit
  else __execute BookingService_of (SEARCH_SERVICES_BY_BOOKING booking_id query limit offset).

Definition create_payment (booking_id amount : Z) (payment_date : string) : Query Payment.t :=
  __execute Payment_of (CREATE_PAYMENT booking_id amount payment_date).

Definition get_payment_count (booking_id : Z) : Query Z :=
  __execute py_int (GET_PAYMENT_COUNT booking_id).

Definition get_payment_page (booking_id offset limit : Z) : Query Payment.t :=
  __execute Payment_of (GET_PAYMENT_PAGE booking_id limit offset).

Definition search_payments (booking_id : Z) (query : string) (offset limit : Z)
  : Query Payment.t :=
  if String.eqb query "" then get_payment_page booking_id offset limit
  else __execute Payment_of (SEARCH_PAYMENTS booking_id query limit offset).

Definition get_payment_totals_by_booking (booking_id : Z) : Query PaymentTotals :=
  __execute PaymentTotals_of (GET_PAYMENT_TOTALS_BY_BOOKING booking_id).

(** ** More of the statement catalog ([scripts.py])

    No modelled statement writes [Roster]: the foreign keys that point
    from it to [Person] and [BookingService] never fire here. *)

Inductive stmt2 : Type :=
| GET_PERSON_BY_EMAIL (email : string)
| GET_PERSON_BY_USERNAME (username : string)
| SET_PERSON_EMPLOYEE (person_id : Z)
| SET_PERSON_CUSTOMER (person_id : Z)
| GET_PERSON_COUNT
| GET_PERSON_COUNT_BY_ROLE (is_employee : Z)
| DELETE_BOOKING_SERVICE (booking_id : Z) (service_id : string)
| DELETE_BOOKINGS_SERVICES (booking_id : Z)
| GET_SERVICE_BY_BOOKING_AND_SERVICE (booking_id : Z) (service_id : string)
| TOGGLE_COMPLETION_BOOKING_SERVICE (booking_id : Z) (service_id : string)
| GET_SERVICES_BY_BOOKING (booking_id : Z)
| GET_SERVICE_COUNT_BY_BOOKING (booking_id : Z)
| GET_COMPLETED_SERVICE_COUNT_BY_BOOKING (booking_id : Z)
| DELETE_PAYMENT (payment_id : Z)
| DELETE_PAYMENTS_BY_BOOKING (booking_id : Z)
| GET_PAYMENT_BY_ID (payment_id : Z)
| GET_PAYMENTS_BY_BOOKING (booking_id : Z).

Definition set_is_employee (v : Z) (p : PersonRow.t) : PersonRow.t :=
  PersonRow.mk p.(PersonRow.id) p.(PersonRow.username) p.(PersonRow.first_name)
    p.(PersonRow.last_name) p.(PersonRow.email) p.(PersonRow.phone_number) v
    p.(PersonRow.hashed_password).

(** [UPDATE Person SET is_employee = v WHERE id = :person_id]; the row
    count is the number of rows the [WHERE] matches. *)
Definition update_is_employee (v person_id : Z) (db : DB) : Py outcome :=
  i <- bind_int person_id ;;
  let hit := filter (fun p => p.(PersonRow.id) =? i) db.(persons) in
  Ret (set_persons db (map (fun p => if p.(PersonRow.id) =? i then set_is_employee v p else p)
                         db.(persons)) db.(person_seq),
       [], None, Z.of_nat (List.length hit)).

(** [booking_id = :booking_id AND service_id = :service_id], the text
    parameter taking the column's INTEGER affinity. *)
Definition bs_hit (b : Z) (sid : string) (r : BookingServiceRow.t) : bool :=
  (r.(BookingServiceRow.booking_id) =? b) && service_key_eq r.(BookingServiceRow.service_id) sid.

(** [SET completed = NOT completed] *)
Definition flip_completed (r : BookingServiceRow.t) : BookingServiceRow.t :=
  BookingServiceRow.mk r.(BookingServiceRow.id) r.(BookingServiceRow.booking_id)
    r.(BookingServiceRow.service_id) r.(BookingServiceRow.duration)
    (if r.(BookingServiceRow.completed) =? 0 then 1 else 0).

Definition count_row (n : nat) : list row := [[("count", SInt (Z.of_nat n))]].

Definition run_stmt2 (st : stmt2) (db : DB) : Py outcome :=
  match st with
  | GET_PERSON_BY_EMAIL email =>
      rows_of db (map person_sql
        (filter (fun p => String.eqb p.(PersonRow.email) email) db.(persons)))
  | GET_PERSON_BY_USERNAME username =>
      rows_of db (map person_sql
        (filter (fun p => String.eqb p.(PersonRow.username) username) db.(persons)))
  | SET_PERSON_EMPLOYEE person_id => update_is_employee 1 person_id db
  | SET_PERSON_CUSTOMER person_id => update_is_employee 0 person_id db
  | GET_PERSON_COUNT => rows_of db (count_row (List.length db.(persons)))
  | GET_PERSON_COUNT_BY_ROLE is_employee =>
      e <- bind_int is_employee ;;
      rows_of db (count_row
        (List.length (filter (fun p => p.(PersonRow.is_employee) =? e) db.(persons))))
  | DELETE_BOOKING_SERVICE booking_id service_id =>
      b <- bind_int booking_id ;;
      let bs := db.(booking_services) in
      Ret (set_booking_services db (filter (fun r => negb (bs_hit b service_id r)) bs)
             db.(booking_service_seq),
           [], None, Z.of_nat (List.length (filter (bs_hit b service_id) bs)))
  | DELETE_BOOKINGS_SERVICES booking_id =>
      b <- bind_int booking_id ;;
      let bs := db.(booking_services) in
      Ret (set_booking_services db
             (filter (fun r => negb (r.(BookingServiceRow.booking_id) =? b)) bs)
             db.(booking_service_seq),
           [], None, Z.of_nat (List.length (services_of_booking db b)))
  | GET_SERVICE_BY_BOOKING_AND_SERVICE booking_id service_id =>
      b <- bind_int booking_id ;;
      rows_of db (map booking_service_sql (filter (bs_hit b service_id) db.(booking_services)))
  | TOGGLE_COMPLETION_BOOKING_SERVICE booking_id service_id =>
      b <- bind_int booking_id ;;
      let bs := db.(booking_services) in
      Ret (set_booking_services db
             (map (fun r => if bs_hit b service_id r then flip_completed r else r) bs)
             db.(booking_service_seq),
           [], None, Z.of_nat (List.length (filter (bs_hit b service_id) bs)))
  | GET_SERVICES_BY_BOOKING booking_id =>
      (** the second definition in [scripts.py], without [ORDER BY] *)
      b <- bind_int booking_id ;;
      rows_of db (map booking_service_sql (services_of_booking db b))
  | GET_SERVICE_COUNT_BY_BOOKING booking_id =>
      b <- bind_int booking_id ;;
      rows_of db (count_row (List.length (services_of_booking db b)))
  | GET_COMPLETED_SERVICE_COUNT_BY_BOOKING booking_id =>
      b <- bind_int booking_id ;;
      let rs := services_of_booking db b in
      rows_of db [[("total", SInt (Z.of_nat (List.length rs)));
                   ("completed", SInt (sum_Z (map BookingServiceRow.completed rs)))]]
  | DELETE_PAYMENT payment_id =>
      i <- bind_int payment_id ;;
      let ps := db.(payments) in
      Ret (set_payments db (filter (fun p => negb (p.(Payment.id) =? i)) ps) db.(payment_seq),
           [], None, Z.of_nat (List.length (filter (fun p => p.(Payment.id) =? i) ps)))
  | DELETE_PAYMENTS_BY_BOOKING booking_id =>
      b <- bind_int booking_id ;;
      let ps := db.(payments) in
      Ret (set_payments db (filter (fun p => negb (p.(Payment.booking_id) =? b)) ps)
             db.(payment_seq),
           [], None, Z.of_nat (List.length (payments_of_booking db b)))
  | GET_PAYMENT_BY_ID payment_id =>
      i <- bind_int payment_id ;;
      rows_of db (map payment_sql (filter (fun p => p.(Payment.id) =? i) db.(payments)))
  | GET_PAYMENTS_BY_BOOKING booking_id =>
      b <- bind_int booking_id ;;
      rows_of db (map payment_sql (payments_of_booking db b))
  end.

(** The shim of [execute] and [__execute], running the statements above. *)
Definition execute2 (script : stmt2) (db : DB) : DB * ShimResult :=
  match run_stmt2 script db with
  | Ret (db', data, lastrowid, rowcount) =>
      (if 0 <? rowcount then notify db' else db',
       mkShimResult None data lastrowid)
  | Raise e => (db, mkShimResult (Some (exc_str e)) [] None)
  end.

Definition __execute2 {T} (transformer : row -> Py T) (script : stmt2) : Query T :=
  fun db =>
    let (db', result) := execute2 script db in
    match map_py transformer result.(sr_data) with
    | Ret new_data =>
        Ret (db', mkResult result.(sr_error) new_data result.(sr_lastrowid))
    | Raise e =>
        if is_validation_error e then Ret (db', mkResult (Some (exc_str e)) [] None)
        else Raise e
    end.

(** [query.BookingServiceCompletion] *)
Record BookingServiceCompletion := mkBookingServiceCompletion {
  bsc_completed : Z; bsc_total : Z }.

Definition BookingServiceCompletion_of (r : row) : Py BookingServiceCompletion :=
  c <- v_int r "completed" ;; t <- v_int r "total" ;;
  Ret (mkBookingServiceCompletion c t).

Definition get_person_by_email (email : string) : Query Person.t :=
  __execute2 Person_of (GET_PERSON_BY_EMAIL email).

Definition get_person_by_username (username : string) : Query Person.t :=
  __execute2 Person_of (GET_PERSON_BY_USERNAME username).

Definition set_person_employee (person_id : Z) : Query unit :=
  __execute2 passthrough (SET_PERSON_EMPLOYEE person_id).

Definition set_person_customer (person_id : Z) : Query unit :=
  __execute2 passthrough (SET_PERSON_CUSTOMER person_id).

Definition get_person_count : Query sqlval :=
  __execute2 extract_count_int GET_PERSON_COUNT.

Definition get_person_count_by_role (is_employee : bool) : Query sqlval :=
  __execute2 extract_count_int (GET_PERSON_COUNT_BY_ROLE (if is_employee then 1 else 0)).

Definition delete_booking_service (booking_id : Z) (service_id : string) : Query unit :=
  __execute2 passthrough (DELETE_BOOKING_SERVICE booking_id service_id).


Definition get_service_by_booking_and_service (booking_id : Z) (service_id : string)
  : Query BookingService.t :=
  __execute2 BookingService_of (GET_SERVICE_BY_BOOKING_AND_SERVICE booking_id service_id).

Definition toggle_completion_booking_service (booking_id : Z) (service_id : string)
  : Query unit :=
  __execute2 passthrough (TOGGLE_COMPLETION_BOOKING_SERVICE booking_id service_id).

(** The second [get_services_by_booking] of [query.py], which replaces
    the first. *)
Definition get_services_by_booking (booking_id : Z) : Query BookingService.t :=
  __execute2 BookingService_of (GET_SERVICES_BY_BOOKING booking_id).

Definition get_service_count_by_booking (booking_id : Z) : Query sqlval :=
  __execute2 extract_count_int (GET_SERVICE_COUNT_BY_BOOKING booking_id).

Definition get_completed_service_count_by_booking (booking_id : Z)
  : Query BookingServiceCompletion :=
  __execute2 BookingServiceCompletion_of (GET_COMPLETED_SERVICE_COUNT_BY_BOOKING booking_id).

Definition delete_payment (payment_id : Z) : Query unit :=
  __execute2 passthrough (DELETE_PAYMENT payment_id).

Definition delete_payments_by_booking (booking_id : Z) : Query unit :=
  __execute2 passthrough (DELETE_PAYMENTS_BY_BOOKING booking_id).

Definition get_payment_by_id (payment_id : Z) : Query Payment.t :=
  __execute2 Payment_of (GET_PAYMENT_BY_ID payment_id).

Definition get_payments_by_booking (booking_id : Z) : Query Payment.t :=
  __execute2 Payment_of (GET_PAYMENTS_BY_BOOKING booking_id).

(** ** The [Database] class ([database.py]) *)

Module Old.

(** [util.Signal]: the handlers, in connection order.  A handler is known
    by a number; calling it is recorded in the database's trace. *)
Record Signal := mkSignal { _handlers : list nat }.


Record CustomerModel := mkCustomer {
  c_id : Z; c_first_name : string; c_last_name : string; c_email : string;
  c_phone : string }.

Record PropertyModel := mkProperty {
  pr_id : Z; pr_street_number : Z; pr_unit : string; pr_street_name : string;
  pr_city : string; pr_post_code : string }.

Record BookingModel := mkBooking {
  b_id : Z; b_customer_id : Z; b_property_id : Z; b_when : string }.

Record ServiceModel := mkService { s_id : Z; s_name : string; s_base_price : float }.

Record BookingServiceModel := mkBookingService {
  bs_booking_id : Z; bs_service_id : Z; bs_completed : bool }.

(** [payment_date] is a [datetime]; it is kept as the text sqlite3's
    default adapter stores for it ([dt.isoformat(" ")]), which is also what
    [PaymentModel( *row)] reads back. *)
Record PaymentModel := mkPayment {
  pay_id : Z; pay_booking_id : Z; pay_amount : float; pay_payment_date : string }.

Definition payment_is_transient (m : PaymentModel) : bool :=
  (m.(pay_id) =? -1) || (m.(pay_booking_id) =? -1).

(** Modelled from the spec: [static/create_tables.sql], the schema the
    [Database] class runs, is not in src/.  Each table holds the columns of
    the class's dataclass, in its field order (the class reads rows back
    with [Model( *row)]), in rowid order; [BookingService] is keyed by
    [(booking_id, service_id)], the target of the class's
    [ON CONFLICT(booking_id, service_id)]; [Payment] and [BookingService]
    rows must reference an existing booking and service (spec 3, foreign
    keys, with [PRAGMA foreign_keys = ON]). *)
Record Tables := mkTables {
  customers : list CustomerModel;
  properties : list PropertyModel;
  bookings : list BookingModel;
  services : list ServiceModel;
  booking_services : list BookingServiceModel;
  payments : list PaymentModel;
  payment_seq : Z }.

Inductive signal_name : Type :=
| customers_changed | properties_changed | bookings_changed
| services_changed | booking_services_changed | payments_changed.

Record Database := mkDatabase {
  tables : Tables;
  signals : signal_name -> Signal;
  (** handlers called so far, in call order *)
  trace : list nat }.

Definition set_tables (db : Database) (t : Tables) : Database :=
  mkDatabase t db.(signals) db.(trace).



(** [Signal.emit]: every connected handler is called once, in order. *)
Definition emit (n : signal_name) (db : Database) : Database :=
  mkDatabase db.(tables) db.(signals) (db.(trace) ++ (db.(signals) n).(_handlers)).

(** [Database.__init__]: six fresh signals, then [create_tables]. *)
Definition create_tables (db : Database) : Database :=
  emit properties_changed (emit customers_changed db).

Definition init (t : Tables) : Database :=
  create_tables (mkDatabase t (fun _ => mkSignal []) []).

Definition with_customers (t : Tables) (cs : list CustomerModel) : Tables :=
  mkTables cs t.(properties) t.(bookings) t.(services) t.(booking_services)
    t.(payments) t.(payment_seq).

Definition with_properties (t : Tables) (ps : list PropertyModel) : Tables :=
  mkTables t.(customers) ps t.(bookings) t.(services) t.(booking_services)
    t.(payments) t.(payment_seq).

Definition with_booking_services (t : Tables) (bs : list BookingServiceModel) : Tables :=
  mkTables t.(customers) t.(properties) t.(bookings) t.(services) bs
    t.(payments) t.(payment_seq).

Definition with_payments (t : Tables) (ps : list PaymentModel) (seq : Z) : Tables :=
  mkTables t.(customers) t.(properties) t.(bookings) t.(services)
    t.(booking_services) ps seq.

(** [Database.remove_customer_by_id]: [DELETE ... WHERE id IN (?, ...)];
    no exception is caught. *)
Definition remove_customer_by_id (ids : list Z) (db : Database) : Py (Database * bool) :=
  ids' <- bind_ints ids ;;
  let t := db.(tables) in
  let keep := filter (fun c => negb (existsb (Z.eqb c.(c_id)) ids')) t.(customers) in
  let rowcount := (List.length t.(customers) - List.length keep)%nat in
  let db1 := set_tables db (with_customers t keep) in
  let success := Nat.ltb 0 rowcount in
  Ret (if success then emit customers_changed db1 else db1, success).

Definition remove_property_by_id (ids : list Z) (db : Database) : Py (Database * bool) :=
  ids' <- bind_ints ids ;;
  let t := db.(tables) in
  let keep := filter (fun p => negb (existsb (Z.eqb p.(pr_id)) ids')) t.(properties) in
  let rowcount := (List.length t.(properties) - List.length keep)%nat in
  let db1 := set_tables db (with_properties t keep) in
  let success := Nat.ltb 0 rowcount in
  Ret (if success then emit properties_changed db1 else db1, success).

(** [Database.get_all_customers]: [LIMIT page_size OFFSET (page-1)*page_size]. *)
Definition get_all_customers (page page_size : Z) (db : Database) : Py (list CustomerModel) :=
  let offset := (page - 1) * page_size in
  l <- bind_int page_size ;; o <- bind_int offset ;;
  Ret (limit_offset l o db.(tables).(customers)).

(** [Database.get_num_customer_pages]: Python's [//] by [page_size]. *)
Definition get_num_customer_pages (page_size : Z) (db : Database) : Py Z :=
  let total_customers := Z.of_nat (List.length db.(tables).(customers)) in
  if page_size =? 0 then Raise (ZeroDivisionError "integer division or modulo by zero")
  else Ret ((total_customers + page_size - 1) / page_size).

(** [Database.create_payment]; an [IntegrityError] is caught. *)
Definition create_payment (model : PaymentModel) (db : Database) : Py (Database * bool) :=
  if negb (payment_is_transient model) then Ret (db, false) else
  b <- bind_int model.(pay_booking_id) ;;
  let t := db.(tables) in
  if negb (existsb (fun x => x.(b_id) =? b) t.(bookings)) then Ret (db, false) else
  let id := t.(payment_seq) + 1 in
  let row := mkPayment id b model.(pay_amount) model.(pay_payment_date) in
  let db1 := set_tables db (with_payments t (t.(payments) ++ [row]) id) in
  let success := negb (id =? -1) in
  Ret (if success then emit payments_changed db1 else db1, success).

(** [Database.booking_get_paid_total_cost]: one row per [Booking] row, each
    carrying the two sub-select totals, [COALESCE]d to 0; [fetchone] takes
    the first, and an empty [Booking] table gives [(0, 0)].  The amounts
    are stored as [REAL]s and summed by SQLite's [SUM]; the services are
    [LEFT JOIN]ed: a booking service without its service adds nothing. *)
Definition payment_summary (b : Z) (t : Tables) : float :=
  coalesce_zero (sql_sum_real
    (map pay_amount (filter (fun p => p.(pay_booking_id) =? b) t.(payments)))).

Definition service_summary (b : Z) (t : Tables) : float :=
  coalesce_zero (sql_sum_real
    (flat_map (fun r =>
       flat_map (fun s => if s.(s_id) =? r.(bs_service_id) then [s.(s_base_price)] else [])
         t.(services))
       (filter (fun r => r.(bs_booking_id) =? b) t.(booking_services)))).

Definition booking_get_paid_total_cost (booking_id : Z) (db : Database)
  : Py (float * float) :=
  b <- bind_int booking_id ;;
  let t := db.(tables) in
  match t.(bookings) with
  | [] => Ret (cents 0, cents 0)
  | _ :: _ => Ret (payment_summary b t, service_summary b t)
  end.


(** [Database.get_booking_service_by_booking_id_and_service_id]: [fetchone]. *)
Definition get_booking_service_by_booking_id_and_service_id (booking_id service_id : Z)
    (db : Database) : Py (option BookingServiceModel) :=
  b <- bind_int booking_id ;; s <- bind_int service_id ;;
  Ret (find (fun r => (r.(bs_booking_id) =? b) && (r.(bs_service_id) =? s))
         db.(tables).(booking_services)).

Definition same_pair (b s : Z) (r : BookingServiceModel) : bool :=
  (r.(bs_booking_id) =? b) && (r.(bs_service_id) =? s).

(** [Database.update_booking_service]: an upsert on
    [(booking_id, service_id)] that sets [completed]; an [IntegrityError]
    is caught. *)
Definition update_booking_service (model : BookingServiceModel) (db : Database)
  : Py (Database * bool) :=
  b <- bind_int model.(bs_booking_id) ;; s <- bind_int model.(bs_service_id) ;;
  let t := db.(tables) in
  let upsert :=
    if existsb (same_pair b s) t.(booking_services) then
      Some (map (fun r => if same_pair b s r then mkBookingService b s model.(bs_completed)
                          else r) t.(booking_services))
    else if existsb (fun x => x.(b_id) =? b) t.(bookings)
            && existsb (fun x => x.(s_id) =? s) t.(services) then
      Some (t.(booking_services) ++ [mkBookingService b s model.(bs_completed)])%list
    else None in
  match upsert with
  | None => Ret (db, false)
  | Some bs =>
      let db1 := set_tables db (with_booking_services t bs) in
      Ret (emit bookings_changed (emit booking_services_changed db1), true)
  end.

(** [Database.toggle_booking_service_completion] *)
Definition toggle_booking_service_completion (booking_id service_id : Z) (db : Database)
  : Py (Database * bool) :=
  service <- get_booking_service_by_booking_id_and_service_id booking_id service_id db ;;
  match service with
  | Some m =>
      update_booking_service
        (mkBookingService m.(bs_booking_id) m.(bs_service_id) (negb m.(bs_completed))) db
  | None => Ret (db, false)
  end.

Definition with_bookings (t : Tables) (bs : list BookingModel) : Tables :=
  mkTables t.(customers) t.(properties) bs t.(services) t.(booking_services)
    t.(payments) t.(payment_seq).

Definition with_services (t : Tables) (ss : list ServiceModel) : Tables :=
  mkTables t.(customers) t.(properties) t.(bookings) ss t.(booking_services)
    t.(payments) t.(payment_seq).

(** The Python value a [remove_*] method passes as [ids]: a list
    ([remove_payment]) or a bare [int] ([remove_customer], [remove_property],
    [remove_booking], [remove_service]). *)
Inductive ids_arg : Type :=
| IdList (ids : list Z)
| IdInt (id : Z).

(** [",".join("?" for _ in ids)]: the generator calls [iter(ids)]. *)
Definition iter_ids (a : ids_arg) : Py (list Z) :=
  match a with
  | IdList ids => Ret ids
  | IdInt _ => Raise (TypeError "'int' object is not iterable")
  end.

Definition customer_is_transient (m : CustomerModel) : bool := m.(c_id) =? -1.
Definition property_is_transient (m : PropertyModel) : bool := m.(pr_id) =? -1.
Definition booking_is_transient (m : BookingModel) : bool :=
  (m.(b_id) =? -1) || (m.(b_customer_id) =? -1) || (m.(b_property_id) =? -1).
Definition service_is_transient (m : ServiceModel) : bool := m.(s_id) =? -1.

Definition remove_booking_by_id (ids : list Z) (db : Database) : Py (Database * bool) :=
  ids' <- bind_ints ids ;;
  let t := db.(tables) in
  let keep := filter (fun b => negb (existsb (Z.eqb b.(b_id)) ids')) t.(bookings) in
  let rowcount := (List.length t.(bookings) - List.length keep)%nat in
  let db1 := set_tables db (with_bookings t keep) in
  let success := Nat.ltb 0 rowcount in
  Ret (if success then emit bookings_changed db1 else db1, success).

Definition remove_service_by_id (ids : list Z) (db : Database) : Py (Database * bool) :=
  ids' <- bind_ints ids ;;
  let t := db.(tables) in
  let keep := filter (fun s => negb (existsb (Z.eqb s.(s_id)) ids')) t.(services) in
  let rowcount := (List.length t.(services) - List.length keep)%nat in
  let db1 := set_tables db (with_services t keep) in
  let success := Nat.ltb 0 rowcount in
  Ret (if success then emit services_changed db1 else db1, success).

Definition remove_payment_by_id (ids : list Z) (db : Database) : Py (Database * bool) :=
  ids' <- bind_ints ids ;;
  let t := db.(tables) in
  let keep := filter (fun p => negb (existsb (Z.eqb p.(pay_id)) ids')) t.(payments) in
  let rowcount := (List.length t.(payments) - List.length keep)%nat in
  let db1 := set_tables db (with_payments t keep t.(payment_seq)) in
  let success := Nat.ltb 0 rowcount in
  Ret (if success then emit payments_changed db1 else db1, success).

(** [Database.remove_customer] and its siblings: the call
    [self.remove_*_by_id(model.id)] hands over the [int] itself.  Each
    returns the database, the model (its [id] set to [-1] on success) and
    the result. *)
Definition remove_customer (model : CustomerModel) (db : Database)
  : Py (Database * CustomerModel * bool) :=
  if customer_is_transient model then Ret (db, model, false) else
  ids <- iter_ids (IdInt model.(c_id)) ;;
  r <- remove_customer_by_id ids db ;;
  let (db', success) := r in
  Ret (db', (if success then mkCustomer (-1) model.(c_first_name) model.(c_last_name)
                              model.(c_email) model.(c_phone) else model), success).

Definition remove_property (model : PropertyModel) (db : Database)
  : Py (Database * PropertyModel * bool) :=
  if property_is_transient model then Ret (db, model, false) else
  ids <- iter_ids (IdInt model.(pr_id)) ;;
  r <- remove_property_by_id ids db ;;
  let (db', success) := r in
  Ret (db', (if success then mkProperty (-1) model.(pr_street_number) model.(pr_unit)
                              model.(pr_street_name) model.(pr_city) model.(pr_post_code)
             else model), success).

Definition remove_booking (model : BookingModel) (db : Database)
  : Py (Database * BookingModel * bool) :=
  if booking_is_transient model then Ret (db, model, false) else
  ids <- iter_ids (IdInt model.(b_id)) ;;
  r <- remove_booking_by_id ids db ;;
  let (db', success) := r in
  Ret (db', (if success then mkBooking (-1) model.(b_customer_id) model.(b_property_id)
                              model.(b_when) else model), success).

Definition remove_service (model : ServiceModel) (db : Database)
  : Py (Database * ServiceModel * bool) :=
  if service_is_transient model then Ret (db, model, false) else
  ids <- iter_ids (IdInt model.(s_id)) ;;
  r <- remove_service_by_id ids db ;;
  let (db', success) := r in
  Ret (db', (if success then mkService (-1) model.(s_name) model.(s_base_price) else model),
       success).

(** [Database.remove_payment] passes [[model.id]]. *)
Definition remove_payment (model : PaymentModel) (db : Database)
  : Py (Database * PaymentModel * bool) :=
  if payment_is_transient model then Ret (db, model, false) else
  ids <- iter_ids (IdList [model.(pay_id)]) ;;
  r <- remove_payment_by_id ids db ;;
  let (db', success) := r in
  Ret (db', (if success then mkPayment (-1) model.(pay_booking_id) model.(pay_amount)
                              model.(pay_payment_date) else model), success).

(** [Database.get_payment_by_id]: [fetchone]. *)
Definition get_payment_by_id (payment_id : Z) (db : Database) : Py (option PaymentModel) :=
  i <- bind_int payment_id ;;
  Ret (find (fun p => p.(pay_id) =? i) db.(tables).(payments)).

Definition get_payments_by_booking_id (booking_id : Z) (db : Database)
  : Py (list PaymentModel) :=
  b <- bind_int booking_id ;;
  Ret (filter (fun p => p.(pay_booking_id) =? b) db.(tables).(payments)).

(** [SELECT SUM(amount)]: [NULL], read as [0.0], over no row. *)
Definition get_total_payments_for_booking (booking_id : Z) (db : Database) : Py float :=
  b <- bind_int booking_id ;;
  match sql_sum_real (map pay_amount
                        (filter (fun p => p.(pay_booking_id) =? b) db.(tables).(payments))) with
  | Some total => Ret total
  | None => Ret (cents 0)
  end.

Definition get_count_payments_for_booking (booking_id : Z) (db : Database) : Py Z :=
  b <- bind_int booking_id ;;
  Ret (Z.of_nat (List.length (filter (fun p => p.(pay_booking_id) =? b) db.(tables).(payments)))).

(** [Database.update_payment]: an upsert on [id]; the foreign key on
    [booking_id] is checked on both paths and its [IntegrityError] caught.
    An explicit [id] above the sequence moves it up. *)
Definition update_payment (model : PaymentModel) (db : Database) : Py (Database * bool) :=
  i <- bind_int model.(pay_id) ;; b <- bind_int model.(pay_booking_id) ;;
  let t := db.(tables) in
  if negb (existsb (fun x => x.(b_id) =? b) t.(bookings)) then Ret (db, false) else
  let row := mkPayment i b model.(pay_amount) model.(pay_payment_date) in
  let ps := if existsb (fun p => p.(pay_id) =? i) t.(payments)
            then map (fun p => if p.(pay_id) =? i then row else p) t.(payments)
            else (t.(payments) ++ [row])%list in
  let db1 := set_tables db (with_payments t ps (Z.max t.(payment_seq) i)) in
  Ret (emit payments_changed db1, true).

Definition add_or_update_payment (model : PaymentModel) (db : Database)
  : Py (Database * bool) :=
  if payment_is_transient model then create_payment model db else update_payment model db.

(** [SELECT booking_id FROM BookingService WHERE completed = 0] *)
Definition pending_booking (t : Tables) (id : Z) : bool :=
  existsb (fun r => (r.(bs_booking_id) =? id) && negb r.(bs_completed)) t.(booking_services).

(** [Database.is_booking_completed]: the [COUNT] of [Booking] rows with [id = ?]
    and [id NOT IN] the pending bookings is positive. *)
Definition is_booking_completed (booking_id : Z) (db : Database) : Py bool :=
  i <- bind_int booking_id ;;
  let t := db.(tables) in
  Ret (0 <? Z.of_nat (List.length
         (filter (fun b => (b.(b_id) =? i) && negb (pending_booking t b.(b_id))) t.(bookings)))).

Definition get_number_uncompleted_bookings (db : Database) : Py Z :=
  let t := db.(tables) in
  Ret (Z.of_nat (List.length (filter (fun b => pending_booking t b.(b_id)) t.(bookings)))).

(** A column value of a row read back by the class. *)
Inductive cell : Type :=
| CInt (z : Z)
| CText (s : string).

(** A [Booking] row: [id], [customer_id], [property_id], [when]. *)
Definition booking_cells (b : BookingModel) : list cell :=
  [CInt b.(b_id); CInt b.(b_customer_id); CInt b.(b_property_id); CText b.(b_when)].

(** [BookingServiceModel( *row)]: the dataclass's [__init__] takes its
    three fields positionally and stores what it is given. *)
Definition BookingServiceModel_star (row : list cell) : Py (list cell) :=
  match row with
  | [] => Raise (TypeError "BookingServiceModel.__init__() missing 3 required positional arguments: 'booking_id', 'service_id', and 'completed'")
  | [_] => Raise (TypeError "BookingServiceModel.__init__() missing 2 required positional arguments: 'service_id' and 'completed'")
  | [_; _] => Raise (TypeError "BookingServiceModel.__init__() missing 1 required positional argument: 'completed'")
  | [_; _; _] => Ret row
  | _ => Raise (TypeError ("BookingServiceModel.__init__() takes 4 positional arguments but "
                           ++ Z_text (Z.of_nat (S (List.length row))) ++ " were given"))
  end.

(** [Database.get_uncompleted_bookings]: the [Booking] rows, each passed
    to [BookingServiceModel]. *)
Definition get_uncompleted_bookings (db : Database) : Py (list (list cell)) :=
  let t := db.(tables) in
  match filter (fun b => pending_booking t b.(b_id)) t.(bookings) with
  | [] => Ret []
  | rows => map_py (fun b => BookingServiceModel_star (booking_cells b)) rows
  end.

Definition get_booking_services_by_booking_id (booking_id : Z) (db : Database)
  : Py (list BookingServiceModel) :=
  b <- bind_int booking_id ;;
  Ret (filter (fun r => r.(bs_booking_id) =? b) db.(tables).(booking_services)).

Definition remove_booking_service_in_booking (booking_id : Z) (db : Database)
  : Py (Database * bool) :=
  b <- bind_int booking_id ;;
  let t := db.(tables) in
  let keep := filter (fun r => negb (r.(bs_booking_id) =? b)) t.(booking_services) in
  let rowcount := (List.length t.(booking_services) - List.length keep)%nat in
  let db1 := set_tables db (with_booking_services t keep) in
  let success := Nat.ltb 0 rowcount in
  Ret (if success then emit booking_services_changed db1 else db1, success).

End Old.

(** * Auxiliary definitions and sample states *)

(** An integer SQLite can bind. *)
Definition in_int64 (z : Z) : bool := ((- 2 ^ 63 <=? z) && (z <? 2 ^ 63))%bool.

(** The pydantic model of a stored person. *)
Definition person_of_row (p : PersonRow.t) : Person.t :=
  Person.mk p.(PersonRow.id) p.(PersonRow.username) p.(PersonRow.first_name)
    p.(PersonRow.last_name) p.(PersonRow.email) p.(PersonRow.phone_number)
    (p.(PersonRow.is_employee) =? 1) p.(PersonRow.hashed_password).

Definition empty_tables : Old.Tables := Old.mkTables [] [] [] [] [] [] 0.

(** Query-layer sample: the seeded admin, one property and one booking. *)
Definition admin_row : PersonRow.t :=
  PersonRow.mk 1 "admin" "Admin" "User" "admin@example.com" "123-456-7890" 1 "240be518".

Definition home : Property.t := Property.mk 1 "1 Main St" "Springfield" "VIC" "3000".

Definition db0 : DB :=
  mkDB [admin_row] [home] [Booking.mk 1 1 1 "2024-05-01"] [] [] [] 1 0 0 0.

(** Runs a query-layer call, then the next one on the state it left. *)
Definition and_then {A B} (m : Py (DB * Result A)) (k : Query B) : Py (DB * Result B) :=
  py_bind m (fun dr => k (fst dr)).

(** [Database] sample: one booking with two services of 50.00 and 30.00. *)
Definition pay_tables : Old.Tables :=
  Old.mkTables [] [] [Old.mkBooking 1 1 1 "2024-05-01 09:00:00"]
    [Old.mkService 1 "Lawn Mowing" (cents 5000); Old.mkService 2 "Hedge Trimming" (cents 3000)]
    [Old.mkBookingService 1 1 false; Old.mkBookingService 1 2 false] [] 0.




Definition customer_tables : Old.Tables :=
  Old.mkTables [Old.mkCustomer 1 "Ann" "Lee" "ann@example.com" "0400 000 000"]
    [] [] [] [] [] 0.

(** A stand-in for [auth.hash_plaintext] in concrete runs. *)
Definition toy_hash (s : string) : string := "h:" ++ s.

Definition bob_row : PersonRow.t :=
  PersonRow.mk 2 "bob" "Bob" "Brown" "bob@example.com" "0400 111 222" 0 (toy_hash "secret").

Definition db_login : DB :=
  mkDB [admin_row; bob_row] [home] [Booking.mk 1 1 1 "2024-05-01"] [] [] [] 2 0 0 0.


(** The result a query-layer call ends with. *)
Definition result_of {A} (m : Py (DB * Result A)) : Py (Result A) :=
  py_bind m (fun dr => Ret (snd dr)).

(** Two services of 50.00 and 30.00 created on [db0]. *)
Definition two_services (id1 id2 : string) : Py (DB * Result Service.t) :=
  and_then (create_service id1 "Lawn mowing" 5000 db0) (create_service id2 "Hedge trimming" 3000).

(** Pages 1 to [get_num_customer_pages page_size], concatenated. *)
Definition all_customer_pages (page_size : Z) (db : Old.Database)
  : Py (list Old.CustomerModel) :=
  n <- Old.get_num_customer_pages page_size db ;;
  pages <- map_py (fun p => Old.get_all_customers p page_size db)
                  (map Z.of_nat (seq 1 (Z.to_nat n))) ;;
  Ret (List.concat pages).

(** The row update [update_booking_service] applies to every row. *)
Definition bs_upd (b s : Z) (c : bool) (r : Old.BookingServiceModel) : Old.BookingServiceModel :=
  if Old.same_pair b s r then Old.mkBookingService b s c else r.

Definition bs_key (r : Old.BookingServiceModel) : Z * Z :=
  (r.(Old.bs_booking_id), r.(Old.bs_service_id)).

Ltac int64_tac :=
  unfold in_int64; apply andb_true_intro; split;
  [apply Z.leb_le | apply Z.ltb_lt]; lia.

(** Whether a call returns the value [v]. *)
Definition returns {A} (eqb : A -> A -> bool) (m : Py A) (v : A) : bool :=
  match m with Ret x => eqb x v | Raise _ => false end.

(** [Database] sample: [pay_tables] with one payment of 20.00. *)
Definition paid_payment : Old.PaymentModel :=
  Old.mkPayment 1 1 (cents 2000) "2024-05-02 10:00:00".

Definition paid_tables : Old.Tables := Old.with_payments pay_tables [paid_payment] 1.

(** Query-layer sample: booking 1 with two services, service ["1"] stored
    as the integer 1 by [INTEGER] affinity and ["hedge"] kept as text, and
    one payment of 20.00. *)
Definition db_svc : DB :=
  mkDB [admin_row] [home] [Booking.mk 1 1 1 "2024-05-01"]
    [Service.mk "1" "Lawn mowing" 5000; Service.mk "hedge" "Hedge trimming" 3000]
    [BookingServiceRow.mk 1 1 (SInt 1) 60 0; BookingServiceRow.mk 2 1 (SText "hedge") 30 1]
    [Payment.mk 1 1 2000 "2024-05-02"] 1 2 1 0.

(** * Properties *)

(** ** Helper lemmas *)

Lemma bind_int_ok (z : Z) : in_int64 z = true -> bind_int z = Ret z.
Proof. unfold bind_int, in_int64. intros ->. reflexivity. Qed.

Lemma bind_ints_ok (zs : list Z) :
  forallb in_int64 zs = true -> bind_ints zs = Ret zs.
Proof.
  induction zs as [|z zs IH]; simpl; [reflexivity|].
  intros H. apply andb_prop in H as [Hz Hzs].
  rewrite (bind_int_ok z Hz). simpl. rewrite (IH Hzs). reflexivity.
Qed.


Lemma map_py_ok {A B} (f : A -> Py B) (g : A -> B) (xs : list A) :
  (forall x, In x xs -> f x = Ret (g x)) -> map_py f xs = Ret (map g xs).
Proof.
  induction xs as [|x xs IH]; simpl; intros H; [reflexivity|].
  rewrite (H x (or_introl eq_refl)). simpl.
  rewrite IH by (intros y Hy; apply H; right; exact Hy). reflexivity.
Qed.


Lemma filter_none {A} (f : A -> bool) (xs : list A) :
  (forall x, In x xs -> f x = false) -> filter f xs = [].
Proof.
  induction xs as [|x xs IH]; simpl; intros H; [reflexivity|].
  rewrite (H x (or_introl eq_refl)). apply IH. intros y Hy. apply H. right. exact Hy.
Qed.

(** A stored person reads back as itself when its email passes [EmailStr]
    unchanged and its role flag is 0 or 1. *)
Lemma Person_of_row (p : PersonRow.t) :
  validate_email p.(PersonRow.email) = Some p.(PersonRow.email) ->
  (p.(PersonRow.is_employee) = 0 \/ p.(PersonRow.is_employee) = 1) ->
  Person_of (person_sql p) = Ret (person_of_row p).
Proof.
  intros He Hr. destruct p as [i u f l em ph r h]; simpl in *.
  unfold Person_of, v_int, v_str, v_email, v_bool, person_of_row; simpl.
  rewrite He. destruct Hr as [-> | ->]; reflexivity.
Qed.

(** ** Failure policy *)




(** ** Empty search *)

(** C7: with an empty query string, every search function returns exactly
    what the plain paginated listing returns at the same offset and limit:
    same state, same rows in the same order, same error. *)
Theorem search_empty_is_page :
  forall (db : DB) (offset limit booking_id : Z),
    search_persons "" offset limit db = get_person_page offset limit db /\
    search_properties "" offset limit db = get_property_page offset limit db /\
    search_bookings "" offset limit db = get_booking_page offset limit db /\
    search_services "" offset limit db = get_service_page offset limit db /\
    search_services_by_booking booking_id "" offset limit db
      = get_service_page_by_booking booking_id offset limit db /\
    search_payments booking_id "" offset limit db
      = get_payment_page booking_id offset limit db.
Proof. intros. repeat split; reflexivity. Qed.

(** ** Create, then read back *)




(** ** Deleting a missing id *)






(** ** Login *)

Lemma filter_unique_key {A} (key : A -> string) (P : A -> bool) (xs : list A) (p : A) :
  NoDup (map key xs) -> In p xs ->
  filter (fun q => String.eqb (key q) (key p) && P q) xs = if P p then [p] else [].
Proof.
  induction xs as [|x xs IH]; simpl; intros Hnd Hin; [destruct Hin|].
  inversion Hnd as [|k ks Hnot Hnd']; subst.
  destruct Hin as [<- | Hin].
  - rewrite String.eqb_refl. simpl.
    rewrite filter_none.
    2:{ intros q Hq. destruct (String.eqb_spec (key q) (key x)) as [E|E]; [|reflexivity].
        exfalso. apply Hnot. rewrite <- E. apply in_map. exact Hq. }
    destruct (P x); reflexivity.
  - destruct (String.eqb_spec (key x) (key p)) as [E|E].
    + exfalso. apply Hnot. rewrite E. apply in_map. exact Hin.
    + simpl. apply IH; assumption.
Qed.

(** C4, refuted: a wrong password gives no error, only an empty value. *)
Lemma login_wrong_password_no_error :
  login_person "admin" "not-the-hash" db0 = Ret (db0, mkResult None [] None).
Proof. vm_compute. reflexivity. Qed.

Section Login.

(** [auth.hash_plaintext], SHA-256 of the text: any function. *)
Variable hash_plaintext : string -> string.

(** C4, amended: for a stored person whose username is unique, whose
    email [EmailStr] accepts unchanged and whose role flag is 0 or 1,
    login with the username and the hash of the right password returns
    exactly that person with no error; with a password whose hash
    differs it returns no error and an empty value. *)
Theorem login_by_hash :
  forall (db : DB) (p : PersonRow.t) (password other : string),
    In p (persons db) ->
    NoDup (map PersonRow.username (persons db)) ->
    PersonRow.hashed_password p = hash_plaintext password ->
    validate_email (PersonRow.email p) = Some (PersonRow.email p) ->
    (PersonRow.is_employee p = 0 \/ PersonRow.is_employee p = 1) ->
    login_person (PersonRow.username p) (hash_plaintext password) db
      = Ret (db, mkResult None [person_of_row p] None) /\
    (hash_plaintext other <> hash_plaintext password ->
     login_person (PersonRow.username p) (hash_plaintext other) db
      = Ret (db, mkResult None [] None)).
Proof.
  intros db p pw other Hin Hnd Hh Hem Hr. split.
  - unfold login_person, __execute, execute, run_stmt, rows_of. simpl.
    rewrite (filter_unique_key PersonRow.username
               (fun q => String.eqb (PersonRow.hashed_password q) (hash_plaintext pw))
               (persons db) p Hnd Hin).
    rewrite Hh, String.eqb_refl. simpl.
    rewrite (Person_of_row p Hem Hr). reflexivity.
  - intros Hne. unfold login_person, __execute, execute, run_stmt, rows_of. simpl.
    rewrite (filter_unique_key PersonRow.username
               (fun q => String.eqb (PersonRow.hashed_password q) (hash_plaintext other))
               (persons db) p Hnd Hin).
    rewrite Hh. destruct (String.eqb_spec (hash_plaintext pw) (hash_plaintext other))
      as [E|E]; [congruence|]. reflexivity.
Qed.

End Login.

Lemma login_by_hash_witness :
  login_person "bob" (toy_hash "secret") db_login
    = Ret (db_login, mkResult None [person_of_row bob_row] None) /\
  login_person "bob" (toy_hash "guess") db_login = Ret (db_login, mkResult None [] None).
Proof.
  destruct (login_by_hash toy_hash db_login bob_row "secret" "guess") as [H1 H2].
  - simpl. right. left. reflexivity.
  - vm_compute. repeat constructor; simpl; intuition discriminate.
  - reflexivity.
  - vm_compute. reflexivity.
  - left. reflexivity.
  - split; [exact H1 | apply H2; vm_compute; discriminate].
Defined.

(** ** Payments *)




(** ** Booking cost *)

(** C6, code bug: [BookingService.service_id] is declared [INTEGER] while
    [Service.id] is [VARCHAR(100)], so [Service.id = BookingService.service_id]
    compares numerically.  With services ["1"] at 50.00 and ["01"] at 30.00
    and only service ["1"] attached to booking 1, the booking holds a single
    service row, yet its cost is 80.00.  With ids that do not read as
    numbers, the same steps give the 80.00 of the two attached services,
    and a booking with no services costs 0. *)
Theorem booking_cost_counts_numeric_twins :
  let attached := and_then (two_services "1" "01") (create_booking_service 1 "1" 60) in
  py_bind attached (fun dr => Ret (List.length (services_of_booking (fst dr) 1))) = Ret 1%nat /\
  result_of (and_then attached (get_booking_cost 1))
    = Ret (mkResult None [mkBookingCost 8000] None) /\
  result_of (and_then (and_then (and_then (two_services "lawn_mowing" "hedge_trimming")
                                          (create_booking_service 1 "lawn_mowing" 60))
                                (create_booking_service 1 "hedge_trimming" 30))
                      (get_booking_cost 1))
    = Ret (mkResult None [mkBookingCost 8000] None) /\
  result_of (get_booking_cost 1 db0) = Ret (mkResult None [mkBookingCost 0] None).
Proof. vm_compute. repeat split. Qed.

(** ** Pagination *)

Lemma pages_concat {A} (ps n : nat) (xs : list A) :
  (List.length xs <= n * ps)%nat ->
  List.concat (map (fun i => firstn ps (skipn (i * ps) xs)) (seq 0 n)) = xs.
Proof.
  revert xs. induction n as [|n IH]; intros xs Hlen.
  - destruct xs; [reflexivity | simpl in Hlen; lia].
  - simpl. rewrite <- seq_shift, map_map.
    rewrite (map_ext (fun i => firstn ps (skipn (S i * ps) xs))
                     (fun i => firstn ps (skipn (i * ps) (skipn ps xs)))).
    + rewrite IH by (rewrite length_skipn; simpl in Hlen; lia).
      apply firstn_skipn.
    + intros i. rewrite skipn_skipn. f_equal. f_equal. simpl. lia.
Qed.

(** With a page size [0 < page_size < 2^63], the pages of customers
    concatenate to the whole table. *)
Lemma all_customer_pages_ok (ps : Z) (db : Old.Database) :
  0 < ps < 2 ^ 63 ->
  Z.of_nat (List.length db.(Old.tables).(Old.customers)) < 2 ^ 63 ->
  all_customer_pages ps db = Ret db.(Old.tables).(Old.customers).
Proof.
  intros Hps HL. unfold all_customer_pages, Old.get_num_customer_pages.
  set (xs := Old.customers (Old.tables db)) in *.
  set (L := Z.of_nat (List.length xs)) in *.
  replace (ps =? 0) with false by (symmetry; apply Z.eqb_neq; lia). simpl py_bind.
  set (n := (L + ps - 1) / ps).
  pose proof (Z.div_mod (L + ps - 1) ps ltac:(lia)) as Hdm.
  pose proof (Z.mod_pos_bound (L + ps - 1) ps ltac:(lia)) as Hmod.
  fold n in Hdm.
  assert (Hn : 0 <= n) by (apply Z.div_pos; lia).
  rewrite (map_py_ok _ (fun p => limit_offset ps ((p - 1) * ps) xs)).
  - simpl. f_equal. rewrite map_map, <- seq_shift, map_map.
    rewrite (map_ext_in _ (fun i => firstn (Z.to_nat ps) (skipn (i * Z.to_nat ps) xs))).
    + apply pages_concat. apply Nat2Z.inj_le. rewrite Nat2Z.inj_mul, !Z2Nat.id by lia.
      fold L. lia.
    + intros i _. unfold limit_offset.
      replace (ps <? 0) with false by (symmetry; apply Z.ltb_ge; lia).
      rewrite Nat2Z.inj_succ. replace (Z.succ (Z.of_nat i) - 1) with (Z.of_nat i) by lia.
      rewrite Z2Nat.inj_mul, Nat2Z.id by lia. reflexivity.
  - intros x Hx. apply in_map_iff in Hx as [k [<- Hk]]. apply in_seq in Hk.
    assert (Hk' : 1 <= Z.of_nat k <= n) by lia.
    assert (Hoff : (Z.of_nat k - 1) * ps <= (n - 1) * ps) by (apply Z.mul_le_mono_nonneg_r; lia).
    unfold Old.get_all_customers. cbv zeta.
    rewrite (bind_int_ok ps) by int64_tac. simpl py_bind.
    rewrite (bind_int_ok ((Z.of_nat k - 1) * ps)) by int64_tac. reflexivity.
Qed.

Lemma all_customer_pages_ok_witness :
  all_customer_pages 10 (Old.init customer_tables) = Ret customer_tables.(Old.customers).
Proof. apply (all_customer_pages_ok 10 (Old.init customer_tables)); simpl; lia. Defined.

(** C8, code bug: with the page size taken as the total row count, an empty
    [Customer] table gives page size 0, and [get_num_customer_pages]
    divides by it: the page count, and so the concatenation of the pages,
    raises [ZeroDivisionError] instead of yielding the (empty) table.  With
    one customer, page sizes 1, 10 and 1 (the total) each give the table. *)
Theorem customer_pages_total_size_empty :
  let db := Old.init empty_tables in
  let total := Z.of_nat (List.length db.(Old.tables).(Old.customers)) in
  total = 0 /\
  Old.get_num_customer_pages total db
    = Raise (ZeroDivisionError "integer division or modulo by zero") /\
  all_customer_pages total db
    = Raise (ZeroDivisionError "integer division or modulo by zero") /\
  (let db1 := Old.init customer_tables in
   all_customer_pages 1 db1 = Ret db1.(Old.tables).(Old.customers) /\
   all_customer_pages 10 db1 = Ret db1.(Old.tables).(Old.customers) /\
   all_customer_pages (Z.of_nat (List.length db1.(Old.tables).(Old.customers))) db1
     = Ret db1.(Old.tables).(Old.customers)).
Proof. vm_compute. repeat split. Qed.

(** ** Change signals *)

Lemma filter_len_le {A} (f : A -> bool) (xs : list A) :
  (List.length (filter f xs) <= List.length xs)%nat.
Proof. induction xs as [|x xs IH]; simpl; [lia|]. destruct (f x); simpl; lia. Qed.

(** A [DELETE] reports rows exactly when some row matches. *)
Lemma removed_count {A} (f : A -> bool) (xs : list A) :
  Nat.ltb 0 (List.length xs - List.length (filter (fun x => negb (f x)) xs)) = existsb f xs.
Proof.
  induction xs as [|x xs IH]; [reflexivity|].
  pose proof (filter_len_le (fun x => negb (f x)) xs) as Hle.
  cbn [filter existsb List.length]. destruct (f x); cbn [negb orb].
  - apply Nat.ltb_lt. lia.
  - exact IH.
Qed.




(** ** Toggling completion *)

Lemma NoDup_map_inj_in {A B} (f : A -> B) (l : list A) (x y : A) :
  NoDup (map f l) -> In x l -> In y l -> f x = f y -> x = y.
Proof.
  induction l as [|a l IH]; simpl; intros Hnd Hx Hy E; [destruct Hx|].
  inversion Hnd as [|k ks Hnot Hnd']; subst.
  destruct Hx as [<- | Hx], Hy as [<- | Hy]; auto.
  - exfalso. apply Hnot. rewrite E. apply in_map. exact Hy.
  - exfalso. apply Hnot. rewrite <- E. apply in_map. exact Hx.
Qed.

Lemma same_pair_mk (b s : Z) (c : bool) :
  Old.same_pair b s (Old.mkBookingService b s c) = true.
Proof. unfold Old.same_pair. simpl. rewrite !Z.eqb_refl. reflexivity. Qed.

Lemma same_pair_key (b s : Z) (r : Old.BookingServiceModel) :
  Old.same_pair b s r = true -> bs_key r = (b, s).
Proof.
  unfold Old.same_pair, bs_key. intros H. apply andb_prop in H as [H1 H2].
  apply Z.eqb_eq in H1, H2. rewrite H1, H2. reflexivity.
Qed.

Lemma same_pair_upd (b s : Z) (c : bool) (r : Old.BookingServiceModel) :
  Old.same_pair b s (bs_upd b s c r) = Old.same_pair b s r.
Proof.
  unfold bs_upd. destruct (Old.same_pair b s r) eqn:E; [apply same_pair_mk | exact E].
Qed.

Lemma bs_upd_upd (b s : Z) (c c' : bool) (r : Old.BookingServiceModel) :
  bs_upd b s c (bs_upd b s c' r) = bs_upd b s c r.
Proof.
  unfold bs_upd at 2. destruct (Old.same_pair b s r) eqn:E; unfold bs_upd.
  - rewrite same_pair_mk, E. reflexivity.
  - rewrite E. reflexivity.
Qed.

Lemma find_map_upd (b s : Z) (c : bool) (l : list Old.BookingServiceModel) :
  find (Old.same_pair b s) (map (bs_upd b s c) l)
  = option_map (bs_upd b s c) (find (Old.same_pair b s) l).
Proof.
  induction l as [|r l IH]; [reflexivity|]. cbn [map find].
  rewrite same_pair_upd. destruct (Old.same_pair b s r); [reflexivity | exact IH].
Qed.

Lemma find_none_existsb {A} (p : A -> bool) (l : list A) :
  existsb p l = false -> find p l = None.
Proof.
  induction l as [|x l IH]; simpl; [reflexivity|].
  destruct (p x); [discriminate | exact IH].
Qed.

Lemma find_some_existsb {A} (p : A -> bool) (l : list A) (m : A) :
  find p l = Some m -> existsb p l = true.
Proof.
  intros Hf. apply find_some in Hf as [Hin Hp]. apply existsb_exists. exists m. auto.
Qed.

(** With the pairs unique, the row found is the only one [bs_upd] touches. *)
Lemma map_upd_found (b s : Z) (c : bool) (l : list Old.BookingServiceModel) :
  NoDup (map bs_key l) -> In (Old.mkBookingService b s c) l ->
  map (bs_upd b s c) l = l /\
  map (fun r => if Old.same_pair b s r
                then Old.mkBookingService b s (negb r.(Old.bs_completed)) else r) l
  = map (bs_upd b s (negb c)) l.
Proof.
  intros Hnd Hm.
  assert (Hu : forall r, In r l -> Old.same_pair b s r = true -> r = Old.mkBookingService b s c).
  { intros r Hr Hp. apply (NoDup_map_inj_in bs_key l); auto.
    rewrite (same_pair_key b s r Hp). reflexivity. }
  split.
  - rewrite <- map_id. apply map_ext_in. intros r Hr. unfold bs_upd.
    destruct (Old.same_pair b s r) eqn:E; [symmetry; apply Hu|]; auto.
  - apply map_ext_in. intros r Hr. unfold bs_upd.
    destruct (Old.same_pair b s r) eqn:E; [rewrite (Hu r Hr E)|]; reflexivity.
Qed.

Lemma toggle_step (db : Old.Database) (b s : Z) (c : bool) :
  in_int64 b = true -> in_int64 s = true ->
  find (Old.same_pair b s) db.(Old.tables).(Old.booking_services)
    = Some (Old.mkBookingService b s c) ->
  Old.toggle_booking_service_completion b s db
  = Ret (Old.emit Old.bookings_changed (Old.emit Old.booking_services_changed
          (Old.set_tables db (Old.with_booking_services db.(Old.tables)
             (map (bs_upd b s (negb c)) db.(Old.tables).(Old.booking_services))))), true).
Proof.
  intros Hb Hs Hf.
  unfold Old.toggle_booking_service_completion,
    Old.get_booking_service_by_booking_id_and_service_id.
  rewrite (bind_int_ok b Hb), (bind_int_ok s Hs). simpl py_bind.
  change (find (fun r => (Old.bs_booking_id r =? b) && (Old.bs_service_id r =? s)))
    with (find (Old.same_pair b s)).
  rewrite Hf. unfold Old.update_booking_service. simpl Old.bs_booking_id.
  simpl Old.bs_service_id. simpl Old.bs_completed.
  rewrite (bind_int_ok b Hb), (bind_int_ok s Hs). simpl py_bind.
  rewrite (find_some_existsb _ _ _ Hf). reflexivity.
Qed.

(** C10: for ids SQLite can bind, and with the [(booking_id, service_id)]
    pairs of [BookingService] unique, toggling a present pair flips that
    row's [completed] flag and leaves every other row as it was, and a
    second toggle restores the tables; toggling an absent pair returns
    [False] and leaves the database unchanged. *)
Theorem toggle_completion_involutive :
  forall (db : Old.Database) (b s : Z),
    in_int64 b = true -> in_int64 s = true ->
    NoDup (map bs_key db.(Old.tables).(Old.booking_services)) ->
    (existsb (Old.same_pair b s) db.(Old.tables).(Old.booking_services) = true ->
     exists db1 db2,
       Old.toggle_booking_service_completion b s db = Ret (db1, true) /\
       Old.toggle_booking_service_completion b s db1 = Ret (db2, true) /\
       db1.(Old.tables) = Old.with_booking_services db.(Old.tables)
         (map (fun r => if Old.same_pair b s r
                        then Old.mkBookingService b s (negb r.(Old.bs_completed)) else r)
              db.(Old.tables).(Old.booking_services)) /\
       db2.(Old.tables) = db.(Old.tables)) /\
    (existsb (Old.same_pair b s) db.(Old.tables).(Old.booking_services) = false ->
     Old.toggle_booking_service_completion b s db = Ret (db, false)).
Proof.
  intros db b s Hb Hs Hnd. split.
  - intros Hex. set (l := Old.booking_services (Old.tables db)) in *.
    destruct (find (Old.same_pair b s) l) as [m|] eqn:Hf.
    2:{ apply existsb_exists in Hex as [x [Hx Hp]].
        pose proof (find_none _ _ Hf x Hx). congruence. }
    pose proof (find_some _ _ Hf) as [Hin Hp].
    destruct m as [mb ms c]. pose proof (same_pair_key b s _ Hp) as Hk.
    unfold bs_key in Hk. simpl in Hk. injection Hk as -> ->.
    destruct (map_upd_found b s c l Hnd Hin) as [Hid Hflip].
    eexists _, _. split; [exact (toggle_step db b s c Hb Hs Hf)|].
    split.
    + apply toggle_step; [exact Hb | exact Hs |]. simpl.
      rewrite find_map_upd. fold l. rewrite Hf. simpl. unfold bs_upd.
      rewrite same_pair_mk. reflexivity.
    + split; [simpl; rewrite Hflip; reflexivity|].
      simpl. rewrite map_map.
      rewrite (map_ext _ _ (bs_upd_upd b s (negb (negb c)) (negb c))).
      rewrite Bool.negb_involutive. fold l. rewrite Hid.
      destruct (Old.tables db); reflexivity.
  - intros Hex. unfold Old.toggle_booking_service_completion,
      Old.get_booking_service_by_booking_id_and_service_id.
    rewrite (bind_int_ok b Hb), (bind_int_ok s Hs). simpl py_bind.
    change (find (fun r => (Old.bs_booking_id r =? b) && (Old.bs_service_id r =? s)))
      with (find (Old.same_pair b s)).
    rewrite (find_none_existsb _ _ Hex). reflexivity.
Qed.

Lemma toggle_completion_involutive_witness :
  (exists db1 db2,
     Old.toggle_booking_service_completion 1 2 (Old.init pay_tables) = Ret (db1, true) /\
     Old.toggle_booking_service_completion 1 2 db1 = Ret (db2, true) /\
     db2.(Old.tables) = pay_tables) /\
  Old.toggle_booking_service_completion 1 3 (Old.init pay_tables)
    = Ret (Old.init pay_tables, false).
Proof.
  destruct (toggle_completion_involutive (Old.init pay_tables) 1 2
              ltac:(int64_tac) ltac:(int64_tac)) as [Hp _].
  { vm_compute. repeat constructor; simpl; intuition discriminate. }
  destruct (toggle_completion_involutive (Old.init pay_tables) 1 3
              ltac:(int64_tac) ltac:(int64_tac)) as [_ Ha].
  { vm_compute. repeat constructor; simpl; intuition discriminate. }
  split.
  - destruct (Hp eq_refl) as [db1 [db2 [H1 [H2 [_ H4]]]]].
    exists db1, db2. repeat split; assumption.
  - exact (Ha eq_refl).
Defined.

(** ** [Database]: removal, payments and completion *)


Lemma find_none_filter {A} (f : A -> bool) (l : list A) :
  find f l = None <-> filter f l = [].
Proof.
  induction l as [|x l IH]; simpl; [tauto|].
  destruct (f x); [split; discriminate | exact IH].
Qed.

Lemma filter_of_filter_neg {A} (f : A -> bool) (l : list A) :
  filter f (filter (fun x => negb (f x)) l) = [].
Proof.
  induction l as [|x l IH]; simpl; [reflexivity|].
  destruct (f x) eqn:E; simpl; [exact IH|]. rewrite E. exact IH.
Qed.

(** [Database.remove_payment] of a stored, non-transient payment deletes
    every payment row with its id, calls the [payments_changed] handlers
    once, marks the model transient (id -1) and returns [True];
    [get_payment_by_id] then finds nothing. *)
Theorem remove_payment_deletes (m : Old.PaymentModel) (db : Old.Database) :
  Old.payment_is_transient m = false ->
  in_int64 m.(Old.pay_id) = true ->
  existsb (fun p => p.(Old.pay_id) =? m.(Old.pay_id)) db.(Old.tables).(Old.payments) = true ->
  exists db' m',
    Old.remove_payment m db = Ret (db', m', true) /\
    m'.(Old.pay_id) = -1 /\
    Old.get_payment_by_id m.(Old.pay_id) db' = Ret None /\
    db'.(Old.tables).(Old.payments)
      = filter (fun p => negb (p.(Old.pay_id) =? m.(Old.pay_id))) db.(Old.tables).(Old.payments) /\
    db'.(Old.trace) = (db.(Old.trace) ++ (db.(Old.signals) Old.payments_changed).(Old._handlers))%list.
Proof.
  intros Ht Hi Hex. unfold Old.remove_payment. rewrite Ht. simpl.
  unfold Old.remove_payment_by_id. rewrite bind_ints_ok by (simpl; rewrite Hi; reflexivity).
  simpl.
  set (ps := Old.payments (Old.tables db)).
  rewrite (filter_ext _ (fun p => negb (p.(Old.pay_id) =? m.(Old.pay_id))))
    by (intros p; rewrite orb_false_r; reflexivity).
  rewrite (removed_count (fun p => p.(Old.pay_id) =? m.(Old.pay_id))). fold ps in Hex. rewrite Hex.
  eexists _, _. split; [reflexivity|]. simpl. repeat split.
  unfold Old.get_payment_by_id. rewrite bind_int_ok by exact Hi. simpl. f_equal.
  apply find_none_filter. apply filter_of_filter_neg.
Qed.

(** When the [Booking] table is not empty, the paid amount
    [booking_get_paid_total_cost] reports for a booking is
    [get_total_payments_for_booking] of it. *)
Theorem paid_equals_total_payments (b : Z) (db : Old.Database) :
  in_int64 b = true ->
  db.(Old.tables).(Old.bookings) <> [] ->
  exists paid total,
    Old.booking_get_paid_total_cost b db = Ret (paid, total) /\
    Old.get_total_payments_for_booking b db = Ret paid.
Proof.
  intros Hb Hne. unfold Old.booking_get_paid_total_cost, Old.get_total_payments_for_booking.
  rewrite (bind_int_ok _ Hb). cbn [py_bind].
  destruct (Old.bookings (Old.tables db)) as [|x xs]; [congruence|].
  eexists _, _. split; [reflexivity|].
  unfold Old.payment_summary, coalesce_zero.
  destruct (sql_sum_real _); reflexivity.
Qed.


Lemma count_pos {A} (f : A -> bool) (l : list A) :
  (0 <? Z.of_nat (List.length (filter f l))) = existsb f l.
Proof.
  induction l as [|x l IH]; [reflexivity|]. simpl.
  destruct (f x); simpl; [|exact IH]. apply Z.ltb_lt. lia.
Qed.

Lemma pending_forallb (t : Old.Tables) (i : Z) :
  negb (Old.pending_booking t i)
  = forallb Old.bs_completed (filter (fun r => r.(Old.bs_booking_id) =? i) t.(Old.booking_services)).
Proof.
  unfold Old.pending_booking. induction (Old.booking_services t) as [|r l IH]; [reflexivity|].
  destruct r as [rb rs rc]; simpl. destruct (rb =? i), rc; simpl; rewrite <- ?IH; reflexivity.
Qed.

(** [is_booking_completed] is [True] exactly when the booking exists and
    each of its booking services is completed (so also when it has none). *)
Theorem is_booking_completed_spec (i : Z) (db : Old.Database) :
  in_int64 i = true ->
  Old.is_booking_completed i db
  = Ret (existsb (fun b => b.(Old.b_id) =? i) db.(Old.tables).(Old.bookings)
         && forallb Old.bs_completed
              (filter (fun r => r.(Old.bs_booking_id) =? i) db.(Old.tables).(Old.booking_services))).
Proof.
  intros Hi. unfold Old.is_booking_completed. rewrite (bind_int_ok _ Hi). cbn [py_bind].
  f_equal. rewrite <- pending_forallb, count_pos.
  set (t := Old.tables db).
  induction (Old.bookings t) as [|b l IH]; [reflexivity|]. simpl.
  destruct (Old.b_id b =? i) eqn:E; simpl; [|exact IH].
  apply Z.eqb_eq in E. rewrite E.
  destruct (negb (Old.pending_booking t i)); simpl; [reflexivity | rewrite IH; apply andb_false_r].
Qed.

Lemma existsb_key {A} (key : A -> Z) (g : Z -> bool) (k : Z) (l : list A) :
  existsb (fun x => (key x =? k) && g (key x)) l = existsb (fun x => key x =? k) l && g k.
Proof.
  induction l as [|x l IH]; simpl; [reflexivity|].
  destruct (key x =? k) eqn:E; simpl; [|exact IH].
  apply Z.eqb_eq in E. rewrite E, IH. destruct (g k); simpl; [reflexivity|apply andb_false_r].
Qed.

Lemma existsb_key_self {A} (key : A -> Z) (b : A) (l : list A) :
  In b l -> existsb (fun x => key x =? key b) l = true.
Proof. intros H. apply existsb_exists. exists b. split; [exact H | apply Z.eqb_refl]. Qed.

(** [get_number_uncompleted_bookings] counts the bookings for which
    [is_booking_completed] returns [False]. *)
Theorem uncompleted_count_vs_status (db : Old.Database) :
  Forall (fun b => in_int64 b.(Old.b_id) = true) db.(Old.tables).(Old.bookings) ->
  Old.get_number_uncompleted_bookings db
  = Ret (Z.of_nat (List.length
           (filter (fun b => returns Bool.eqb (Old.is_booking_completed b.(Old.b_id) db) false)
              db.(Old.tables).(Old.bookings)))).
Proof.
  intros Hall. unfold Old.get_number_uncompleted_bookings. do 3 f_equal.
  apply filter_ext_in. intros b Hb. rewrite Forall_forall in Hall.
  unfold Old.is_booking_completed. rewrite (bind_int_ok _ (Hall b Hb)). cbn [py_bind returns].
  rewrite count_pos, (existsb_key Old.b_id (fun k => negb (Old.pending_booking (Old.tables db) k))),
    (existsb_key_self Old.b_id b _ Hb).
  destruct (Old.pending_booking (Old.tables db) (Old.b_id b)); reflexivity.
Qed.

(** [get_uncompleted_bookings] builds [BookingServiceModel( *row)] from
    the four columns of a [Booking] row: it returns [[]] when
    [get_number_uncompleted_bookings] is 0 and raises [TypeError] whenever
    that count is positive. *)
Theorem uncompleted_bookings_unreadable (db : Old.Database) :
  (Old.get_number_uncompleted_bookings db = Ret 0 /\ Old.get_uncompleted_bookings db = Ret []) \/
  (exists n, Old.get_number_uncompleted_bookings db = Ret n /\ 0 < n /\
     Old.get_uncompleted_bookings db
     = Raise (TypeError "BookingServiceModel.__init__() takes 4 positional arguments but 5 were given")).
Proof.
  unfold Old.get_number_uncompleted_bookings, Old.get_uncompleted_bookings.
  destruct (filter _ _) as [|b l].
  - left. split; reflexivity.
  - right. eexists. split; [reflexivity|]. split; [simpl; lia|]. reflexivity.
Qed.

Lemma existsb_and_filter_neg {A} (f h : A -> bool) (l : list A) :
  existsb (fun x => f x && h x) (filter (fun x => negb (f x)) l) = false.
Proof.
  induction l as [|x l IH]; simpl; [reflexivity|].
  destruct (f x) eqn:E; simpl; [exact IH|]. rewrite E. exact IH.
Qed.

Lemma filter_filter_implied {A} (f g : A -> bool) (l : list A) :
  (forall x, f x = true -> g x = true) -> filter f (filter g l) = filter f l.
Proof.
  intros H. induction l as [|x l IH]; simpl; [reflexivity|].
  destruct (g x) eqn:Eg; simpl.
  - rewrite IH. reflexivity.
  - destruct (f x) eqn:Ef; [rewrite (H x Ef) in Eg; discriminate | exact IH].
Qed.

(** [remove_booking_service_in_booking] deletes every booking service of
    the booking, reporting whether there was one, leaves the other bookings'
    services alone, and the booking then counts as completed exactly when
    it exists. *)
Theorem remove_services_completes_booking (b : Z) (db : Old.Database) :
  in_int64 b = true ->
  exists db' ok,
    Old.remove_booking_service_in_booking b db = Ret (db', ok) /\
    ok = existsb (fun r => r.(Old.bs_booking_id) =? b) db.(Old.tables).(Old.booking_services) /\
    Old.get_booking_services_by_booking_id b db' = Ret [] /\
    Old.is_booking_completed b db'
      = Ret (existsb (fun x => x.(Old.b_id) =? b) db.(Old.tables).(Old.bookings)) /\
    (forall b', b' <> b ->
       Old.get_booking_services_by_booking_id b' db' = Old.get_booking_services_by_booking_id b' db).
Proof.
  intros Hb. unfold Old.remove_booking_service_in_booking. rewrite (bind_int_ok _ Hb). cbn [py_bind].
  rewrite (removed_count (fun r => Old.bs_booking_id r =? b)).
  set (ok := existsb _ _).
  assert (Ht : forall db1 : Old.Database, Old.tables (if ok then Old.emit Old.booking_services_changed db1 else db1) = Old.tables db1)
    by (intros; destruct ok; reflexivity).
  eexists _, ok. split; [reflexivity|]. split; [reflexivity|].
  unfold Old.get_booking_services_by_booking_id, Old.is_booking_completed.
  rewrite !Ht. simpl. rewrite (bind_int_ok _ Hb). cbn [py_bind]. split; [|split].
  - f_equal. apply filter_of_filter_neg.
  - f_equal. rewrite count_pos.
    rewrite (existsb_key Old.b_id (fun k => negb (Old.pending_booking _ k))).
    unfold Old.pending_booking. simpl.
    rewrite existsb_and_filter_neg. apply andb_true_r.
  - intros b' Hb'. destruct (bind_int b') as [j|e] eqn:Ej; cbn [py_bind]; [|reflexivity].
    assert (j = b') as -> by (unfold bind_int in Ej; destruct (_ && _); inversion Ej; reflexivity).
    f_equal. apply filter_filter_implied. intros r Hr.
    apply Z.eqb_eq in Hr. rewrite Hr. apply negb_true_iff, Z.eqb_neq. exact Hb'.
Qed.


(** ** More of the query layer *)

(** [query.get_payment_count] never returns a count: with a bindable id,
    [int( **row)] receives the keyword [count] and raises [TypeError];
    otherwise the overflow of the id comes back as an error envelope. *)
Theorem get_payment_count_never_counts (b : Z) (db : DB) :
  get_payment_count b db
  = if in_int64 b then Raise (TypeError "'count' is an invalid keyword argument for int()")
    else Ret (db, mkResult (Some "Python int too large to convert to SQLite INTEGER") [] None).
Proof.
  unfold get_payment_count, __execute, execute, run_stmt, bind_int, in_int64.
  destruct ((- 2 ^ 63 <=? b) && (b <? 2 ^ 63)); reflexivity.
Qed.

Lemma count_roles (ps : list PersonRow.t) :
  Forall (fun p => PersonRow.is_employee p = 0 \/ PersonRow.is_employee p = 1) ps ->
  (List.length (filter (fun p => (PersonRow.is_employee p =? 1)%Z) ps)
  + List.length (filter (fun p => (PersonRow.is_employee p =? 0)%Z) ps) = List.length ps)%nat.
Proof.
  induction 1 as [|p ps Hp _ IH]; [reflexivity|]. simpl.
  destruct Hp as [-> | ->]; simpl; lia.
Qed.

(** When each stored [is_employee] is 0 or 1, the employee count plus the
    customer count of [get_person_count_by_role] is [get_person_count]. *)
Theorem person_count_by_roles (db : DB) :
  Forall (fun p => PersonRow.is_employee p = 0 \/ PersonRow.is_employee p = 1) db.(persons) ->
  exists e c,
    get_person_count_by_role true db = Ret (db, mkResult None [SInt e] None) /\
    get_person_count_by_role false db = Ret (db, mkResult None [SInt c] None) /\
    get_person_count db = Ret (db, mkResult None [SInt (e + c)] None).
Proof.
  intros H. eexists _, _. split; [reflexivity|]. split; [reflexivity|].
  unfold get_person_count, __execute2, execute2, run_stmt2. simpl.
  rewrite <- (count_roles _ H), Nat2Z.inj_add. reflexivity.
Qed.

Lemma map_upd_absent (i v : Z) (l : list PersonRow.t) :
  (forall x, In x l -> PersonRow.id x <> i) ->
  map (fun p => if PersonRow.id p =? i then set_is_employee v p else p) l = l.
Proof.
  induction l as [|x l IH]; simpl; intros H; [reflexivity|].
  replace (PersonRow.id x =? i) with false by (symmetry; apply Z.eqb_neq; apply H; left; reflexivity).
  rewrite IH by (intros y Hy; apply H; right; exact Hy). reflexivity.
Qed.

Lemma count_role_app (e : Z) (l1 l2 : list PersonRow.t) (p : PersonRow.t) :
  List.length (filter (fun q => (PersonRow.is_employee q =? e)%Z) (l1 ++ p :: l2))
  = (List.length (filter (fun q => (PersonRow.is_employee q =? e)%Z) (l1 ++ l2))
     + if (PersonRow.is_employee p =? e)%Z then 1 else 0)%nat.
Proof.
  rewrite !filter_app, !length_app. simpl. destruct (PersonRow.is_employee p =? e); simpl; lia.
Qed.

(** [set_person_employee] on a stored customer (ids unique) moves one
    person from the customer count to the employee count;
    [set_person_customer] on the same id then restores the [Person] table. *)
Theorem set_role_round_trip (i : Z) (p : PersonRow.t) (db : DB) :
  in_int64 i = true ->
  NoDup (map PersonRow.id db.(persons)) ->
  In p db.(persons) -> PersonRow.id p = i -> PersonRow.is_employee p = 0 ->
  exists e c db1 db2,
    get_person_count_by_role true db = Ret (db, mkResult None [SInt e] None) /\
    get_person_count_by_role false db = Ret (db, mkResult None [SInt c] None) /\
    set_person_employee i db = Ret (db1, mkResult None [] None) /\
    get_person_count_by_role true db1 = Ret (db1, mkResult None [SInt (e + 1)] None) /\
    get_person_count_by_role false db1 = Ret (db1, mkResult None [SInt (c - 1)] None) /\
    set_person_customer i db1 = Ret (db2, mkResult None [] None) /\
    db2.(persons) = db.(persons).
Proof.
  intros Hi Hnd Hin Hid Hemp.
  destruct (in_split _ _ Hin) as [l1 [l2 Hps]].
  rewrite Hps, map_app in Hnd. simpl in Hnd. apply NoDup_remove_2 in Hnd.
  assert (Hout : forall x, In x (l1 ++ l2) -> PersonRow.id x <> i).
  { intros x Hx Heq. apply Hnd. rewrite <- map_app, Hid, <- Heq. apply in_map. exact Hx. }
  assert (H1 : forall x, In x l1 -> PersonRow.id x <> i)
    by (intros x Hx; apply Hout, in_or_app; left; exact Hx).
  assert (H2 : forall x, In x l2 -> PersonRow.id x <> i)
    by (intros x Hx; apply Hout, in_or_app; right; exact Hx).
  assert (Hmap : forall v q, PersonRow.id q = i ->
    map (fun q => if PersonRow.id q =? i then set_is_employee v q else q) (l1 ++ q :: l2)
    = (l1 ++ set_is_employee v q :: l2)%list).
  { intros v q Hq. rewrite map_app, !map_upd_absent by assumption. simpl.
    rewrite Hq, Z.eqb_refl, map_upd_absent by assumption. reflexivity. }
  assert (Hex : forall q, PersonRow.id q = i ->
            existsb (fun q => PersonRow.id q =? i) (l1 ++ q :: l2) = true)
    by (intros q Hq; rewrite existsb_app; simpl; rewrite Hq, Z.eqb_refl, orb_true_r; reflexivity).
  set (cnt e l := Z.of_nat (List.length (filter (fun q => PersonRow.is_employee q =? e) l))).
  set (db1 := notify (set_persons db (l1 ++ set_is_employee 1 p :: l2) (person_seq db))).
  set (db2 := notify (set_persons db1 (l1 ++ set_is_employee 0 (set_is_employee 1 p) :: l2)
                        (person_seq db1))).
  exists (cnt 1 (persons db)), (cnt 0 (persons db)), db1, db2.
  unfold get_person_count_by_role, set_person_employee, set_person_customer,
    __execute2, execute2, run_stmt2, update_is_employee.
  rewrite !(bind_int_ok _ Hi). cbn [py_bind].
  rewrite Hps, !count_pos, (Hex p Hid), (Hmap 1 p Hid). fold db1.
  change (persons db1) with (l1 ++ set_is_employee 1 p :: l2)%list.
  rewrite (Hex (set_is_employee 1 p) Hid), (Hmap 0 (set_is_employee 1 p) Hid). fold db2.
  split; [reflexivity|]. split; [reflexivity|].
  unfold cnt. rewrite !count_role_app. simpl. rewrite Hemp. simpl.
  split; [reflexivity|].
  rewrite (count_role_app 1 l1 l2 (set_is_employee 1 p)),
    (count_role_app 0 l1 l2 (set_is_employee 1 p)). simpl.
  split; [repeat f_equal; lia|]. split; [repeat f_equal; lia|]. split; [reflexivity|].
  simpl. f_equal. f_equal. destruct p as [? ? ? ? ? ? ie ?]. simpl in Hemp. subst ie. reflexivity.
Qed.


Lemma exec2_read {T} (tr : row -> Py T) (st : stmt2) (db : DB) (rs : list row) (vs : list T) :
  run_stmt2 st db = Ret (db, rs, None, -1) -> map_py tr rs = Ret vs ->
  __execute2 tr st db = Ret (db, mkResult None vs None).
Proof. intros H1 H2. unfold __execute2, execute2. rewrite H1. simpl. rewrite H2. reflexivity. Qed.

Lemma exec2_write (st : stmt2) (db db' : DB) (n : Z) :
  run_stmt2 st db = Ret (db', [], None, n) ->
  __execute2 passthrough st db
    = Ret (if 0 <? n then notify db' else db', mkResult None [] None).
Proof. intros H. unfold __execute2, execute2. rewrite H. reflexivity. Qed.

Lemma Payment_of_rows (ps : list Payment.t) :
  map_py Payment_of (map payment_sql ps) = Ret ps.
Proof. induction ps as [|[i b a d] ps IH]; simpl; [reflexivity|]. rewrite IH. reflexivity. Qed.

(** After [delete_payment i], [get_payment_by_id i] returns no payment and
    no error, exactly the payments with other ids remain, and the lookup of
    another id returns what it returned before. *)
Theorem delete_payment_then_get (i : Z) (db : DB) :
  in_int64 i = true ->
  exists db1,
    delete_payment i db = Ret (db1, mkResult None [] None) /\
    get_payment_by_id i db1 = Ret (db1, mkResult None [] None) /\
    db1.(payments) = filter (fun p => negb (Payment.id p =? i)) db.(payments) /\
    (forall j r, j <> i -> get_payment_by_id j db = Ret (db, r) ->
       get_payment_by_id j db1 = Ret (db1, r)).
Proof.
  intros Hi.
  set (db' := set_payments db (filter (fun p => negb (Payment.id p =? i)) db.(payments))
                db.(payment_seq)).
  set (db1 := if existsb (fun p => Payment.id p =? i) db.(payments) then notify db' else db').
  exists db1.
  assert (Hp : payments db1 = filter (fun p => negb (Payment.id p =? i)) db.(payments))
    by (unfold db1; destruct (existsb _ _); reflexivity).
  split; [|split; [|split; [exact Hp|]]].
  - unfold delete_payment. rewrite (exec2_write _ db db'
      (Z.of_nat (List.length (filter (fun p => Payment.id p =? i) db.(payments))))).
    + rewrite count_pos. reflexivity.
    + simpl. rewrite (bind_int_ok _ Hi). reflexivity.
  - unfold get_payment_by_id. apply exec2_read with (rs := []); [|reflexivity].
    simpl. rewrite (bind_int_ok _ Hi). simpl. rewrite Hp, filter_of_filter_neg. reflexivity.
  - intros j r Hj. unfold get_payment_by_id, __execute2, execute2, run_stmt2.
    destruct (bind_int j) as [j'|e] eqn:Ej; simpl.
    + assert (j' = j) as ->
        by (unfold bind_int in Ej; destruct (_ && _)%bool; inversion Ej; reflexivity).
      rewrite Hp, filter_filter_implied.
      * destruct (map_py Payment_of _); [intros H; inversion H; reflexivity|].
        destruct (is_validation_error _); intros H; inversion H; reflexivity.
      * intros p Hpj. apply Z.eqb_eq in Hpj. rewrite Hpj.
        apply Z.eqb_neq in Hj. rewrite Hj. reflexivity.
    + intros H. inversion H. reflexivity.
Qed.

(** [query.create_payment] on an existing booking returns the id
    [payment_seq + 1], fresh when every stored id is at most [payment_seq];
    [get_payment_by_id] of it then returns the new payment, and
    [get_payments_by_booking] the booking's earlier payments followed by
    it. *)
Theorem create_payment_then_get (b a : Z) (d : string) (db : DB) :
  in_int64 b = true ->
  existsb (fun x => Booking.id x =? b) db.(bookings) = true ->
  in_int64 (payment_seq db + 1) = true ->
  Forall (fun p => Payment.id p <= payment_seq db) db.(payments) ->
  exists db1,
    create_payment b a d db = Ret (db1, mkResult None [] (Some (payment_seq db + 1))) /\
    get_payment_by_id (payment_seq db + 1) db1
      = Ret (db1, mkResult None [Payment.mk (payment_seq db + 1) b a d] None) /\
    get_payments_by_booking b db1
      = Ret (db1, mkResult None (payments_of_booking db b ++ [Payment.mk (payment_seq db + 1) b a d]) None).
Proof.
  intros Hb Hbk Hn Hseq.
  set (p := Payment.mk (payment_seq db + 1) b a d).
  exists (notify (set_payments db (db.(payments) ++ [p]) (payment_seq db + 1))).
  split; [|split].
  - unfold create_payment, __execute, execute, run_stmt.
    rewrite (bind_int_ok _ Hb). simpl py_bind. rewrite Hbk. reflexivity.
  - unfold get_payment_by_id. apply exec2_read with (rs := [payment_sql p]).
    + simpl. rewrite (bind_int_ok _ Hn). simpl. rewrite filter_app.
      rewrite filter_none.
      * simpl. rewrite Z.eqb_refl. reflexivity.
      * intros q Hq. rewrite Forall_forall in Hseq. specialize (Hseq q Hq).
        apply Z.eqb_neq. lia.
    + exact (Payment_of_rows [p]).
  - unfold get_payments_by_booking.
    apply exec2_read with (rs := map payment_sql (payments_of_booking db b ++ [p])).
    + simpl. rewrite (bind_int_ok _ Hb). simpl. unfold payments_of_booking. simpl.
      rewrite filter_app. simpl. rewrite Z.eqb_refl. reflexivity.
    + apply Payment_of_rows.
Qed.


Lemma BookingService_of_row (r : BookingServiceRow.t) :
  BookingServiceRow.completed r = 0 \/ BookingServiceRow.completed r = 1 ->
  BookingService_of (booking_service_sql r)
    = match BookingServiceRow.service_id r with
      | SText s => Ret (BookingService.mk (BookingServiceRow.id r)
                          (BookingServiceRow.booking_id r) s
                          (BookingServiceRow.duration r)
                          (BookingServiceRow.completed r =? 1))
      | _ => Raise (ValidationError "service_id: Input should be a valid string")
      end.
Proof.
  destruct r as [i b s d c]; simpl. intros Hc.
  unfold BookingService_of, v_int, v_str, v_bool; simpl.
  destruct s; simpl; try reflexivity. destruct Hc as [-> | ->]; reflexivity.
Qed.

(** [BookingService.service_id] is an [INTEGER] column while
    [schema.BookingService.service_id] is a [str]: when one service row of
    the booking holds an integer service id (and the flags are 0 or 1),
    [get_services_by_booking] returns an error, pydantic's validation
    error, and no services. *)
Theorem services_by_booking_numeric_id (b : Z) (db : DB) (r : BookingServiceRow.t) :
  in_int64 b = true ->
  Forall (fun r => BookingServiceRow.completed r = 0 \/ BookingServiceRow.completed r = 1)
    (services_of_booking db b) ->
  In r (services_of_booking db b) ->
  (forall s, BookingServiceRow.service_id r <> SText s) ->
  exists msg, get_services_by_booking b db = Ret (db, mkResult (Some msg) [] None).
Proof.
  intros Hb Hc Hin Hr. exists "service_id: Input should be a valid string".
  assert (Hm : map_py BookingService_of (map booking_service_sql (services_of_booking db b))
               = Raise (ValidationError "service_id: Input should be a valid string")).
  { induction Hc as [|x xs Hx Hxs IH]; [contradiction|].
    simpl. rewrite (BookingService_of_row x Hx).
    destruct Hin as [<- | Hin].
    - destruct (BookingServiceRow.service_id x) eqn:E; try reflexivity.
      exfalso. eapply Hr. first [exact E | reflexivity].
    - destruct (BookingServiceRow.service_id x); try reflexivity.
      simpl. rewrite (IH Hin). reflexivity. }
  unfold get_services_by_booking, __execute2, execute2. simpl.
  rewrite (bind_int_ok _ Hb). simpl. rewrite Hm. reflexivity.
Qed.

Lemma sum_completed (rs : list BookingServiceRow.t) :
  Forall (fun r => BookingServiceRow.completed r = 0 \/ BookingServiceRow.completed r = 1) rs ->
  sum_Z (map BookingServiceRow.completed rs)
    = Z.of_nat (List.length (filter (fun r => BookingServiceRow.completed r =? 1) rs)).
Proof.
  induction 1 as [|r rs Hr _ IH]; [reflexivity|].
  unfold sum_Z in *. cbn [map fold_right filter]. rewrite IH.
  destruct Hr as [E | E]; rewrite E; cbn [Z.eqb Pos.eqb].
  - apply Z.add_0_l.
  - rewrite length_cons, Nat2Z.inj_succ. apply Z.add_1_l.
Qed.

(** With [completed] flags 0 or 1,
    [get_completed_service_count_by_booking] returns as [total] the count
    [get_service_count_by_booking] returns, and as [completed] the number
    of completed services, between 0 and [total]. *)
Theorem completion_counts (b : Z) (db : DB) :
  in_int64 b = true ->
  Forall (fun r => BookingServiceRow.completed r = 0 \/ BookingServiceRow.completed r = 1)
    (services_of_booking db b) ->
  let n := Z.of_nat (List.length (services_of_booking db b)) in
  let k := Z.of_nat (List.length (filter (fun r => BookingServiceRow.completed r =? 1)
                                    (services_of_booking db b))) in
  get_service_count_by_booking b db = Ret (db, mkResult None [SInt n] None) /\
  get_completed_service_count_by_booking b db
    = Ret (db, mkResult None [mkBookingServiceCompletion k n] None) /\
  0 <= k <= n.
Proof.
  intros Hb Hc n k. split; [|split].
  - unfold get_service_count_by_booking.
    apply exec2_read with (rs := count_row (List.length (services_of_booking db b))).
    + simpl. rewrite (bind_int_ok _ Hb). reflexivity.
    + reflexivity.
  - unfold get_completed_service_count_by_booking.
    apply exec2_read with (rs := [[("total", SInt n); ("completed", SInt k)]]).
    + simpl. rewrite (bind_int_ok _ Hb). simpl. unfold k. rewrite <- (sum_completed _ Hc).
      reflexivity.
    + reflexivity.
  - unfold k, n. split; [lia|]. apply Nat2Z.inj_le. apply filter_len_le.
Qed.

(** After [create_person] with a fresh username and an email that
    [EmailStr] accepts and no stored person has, [get_person_by_username]
    and [get_person_by_email] (with the email as given) each return the one
    new person: id [person_seq + 1], a customer, the email normalised. *)
Theorem create_person_then_lookup (u f l e ph h e' : string) (db : DB) :
  existsb (fun p => String.eqb (PersonRow.username p) u) db.(persons) = false ->
  existsb (fun p => String.eqb (PersonRow.email p) e) db.(persons) = false ->
  validate_email e = Some e' ->
  let pm := Person.mk (person_seq db + 1) u f l e' ph false h in
  exists db1,
    create_person u f l e ph h db = Ret (db1, mkResult None [] (Some (person_seq db + 1))) /\
    get_person_by_username u db1 = Ret (db1, mkResult None [pm] None) /\
    get_person_by_email e db1 = Ret (db1, mkResult None [pm] None).
Proof.
  intros Hu He Hv pm.
  set (p := PersonRow.mk (person_seq db + 1) u f l e ph 0 h).
  assert (Hp : Person_of (person_sql p) = Ret pm)
    by (unfold Person_of, v_int, v_str, v_email, v_bool; simpl; rewrite Hv; reflexivity).
  exists (notify (set_persons db (db.(persons) ++ [p]) (person_seq db + 1))).
  split; [|split].
  - unfold create_person, __execute, execute, run_stmt. rewrite Hu, He. reflexivity.
  - unfold get_person_by_username. apply exec2_read with (rs := [person_sql p]).
    + simpl. rewrite filter_app, (filter_none _ (persons db)).
      * simpl. rewrite String.eqb_refl. reflexivity.
      * intros q Hq. destruct (String.eqb (PersonRow.username q) u) eqn:E; [|reflexivity].
        rewrite <- Hu. symmetry. apply existsb_exists. exists q. split; assumption.
    + simpl. rewrite Hp. reflexivity.
  - unfold get_person_by_email. apply exec2_read with (rs := [person_sql p]).
    + simpl. rewrite filter_app, (filter_none _ (persons db)).
      * simpl. rewrite String.eqb_refl. reflexivity.
      * intros q Hq. destruct (String.eqb (PersonRow.email q) e) eqn:E; [|reflexivity].
        rewrite <- He. symmetry. apply existsb_exists. exists q. split; assumption.
    + simpl. rewrite Hp. reflexivity.
Qed.

(** ** Witnesses of the properties above *)

Lemma remove_payment_deletes_witness :
  exists db' m',
    Old.remove_payment paid_payment (Old.init paid_tables) = Ret (db', m', true) /\
    Old.get_payment_by_id 1 db' = Ret None.
Proof.
  destruct (remove_payment_deletes paid_payment (Old.init paid_tables)
              ltac:(reflexivity) ltac:(reflexivity) ltac:(reflexivity))
    as [db' [m' [H1 [_ [H3 _]]]]].
  exists db', m'. split; assumption.
Defined.

Lemma paid_equals_total_payments_witness :
  exists paid total,
    Old.booking_get_paid_total_cost 1 (Old.init paid_tables) = Ret (paid, total) /\
    Old.get_total_payments_for_booking 1 (Old.init paid_tables) = Ret paid.
Proof.
  apply (paid_equals_total_payments 1 (Old.init paid_tables));
    [reflexivity | simpl; discriminate].
Defined.

Lemma is_booking_completed_spec_witness :
  Old.is_booking_completed 1 (Old.init pay_tables) = Ret false.
Proof.
  rewrite (is_booking_completed_spec 1 (Old.init pay_tables) ltac:(reflexivity)).
  reflexivity.
Defined.

Lemma uncompleted_count_vs_status_witness :
  Old.get_number_uncompleted_bookings (Old.init pay_tables) = Ret 1.
Proof.
  rewrite (uncompleted_count_vs_status (Old.init pay_tables)
             ltac:(simpl; repeat constructor)).
  reflexivity.
Defined.

Lemma remove_services_completes_booking_witness :
  exists db',
    Old.remove_booking_service_in_booking 1 (Old.init pay_tables) = Ret (db', true) /\
    Old.is_booking_completed 1 db' = Ret true.
Proof.
  destruct (remove_services_completes_booking 1 (Old.init pay_tables) ltac:(reflexivity))
    as [db' [ok [H1 [Hok [_ [H4 _]]]]]].
  exists db'. rewrite Hok in H1. split; [exact H1 | exact H4].
Defined.

Lemma person_count_by_roles_witness :
  exists e c,
    get_person_count_by_role true db_login = Ret (db_login, mkResult None [SInt e] None) /\
    get_person_count_by_role false db_login = Ret (db_login, mkResult None [SInt c] None) /\
    get_person_count db_login = Ret (db_login, mkResult None [SInt (e + c)] None).
Proof.
  apply person_count_by_roles. simpl. repeat apply Forall_cons; try apply Forall_nil; simpl; lia.
Defined.

Lemma set_role_round_trip_witness :
  exists db1 db2,
    set_person_employee 2 db_login = Ret (db1, mkResult None [] None) /\
    get_person_count_by_role true db1 = Ret (db1, mkResult None [SInt 2] None) /\
    set_person_customer 2 db1 = Ret (db2, mkResult None [] None) /\
    db2.(persons) = db_login.(persons).
Proof.
  destruct (set_role_round_trip 2 bob_row db_login ltac:(reflexivity)
              ltac:(simpl; repeat constructor; simpl; intuition discriminate)
              ltac:(simpl; auto) ltac:(reflexivity) ltac:(reflexivity))
    as [e [c [db1 [db2 [He [_ [H1 [H2 [_ [H3 H4]]]]]]]]]].
  exists db1, db2. split; [exact H1|]. split; [|split; assumption].
  rewrite H2. vm_compute in He. inversion He. reflexivity.
Defined.

Lemma delete_payment_then_get_witness :
  exists db1,
    delete_payment 1 db_svc = Ret (db1, mkResult None [] None) /\
    get_payment_by_id 1 db1 = Ret (db1, mkResult None [] None).
Proof.
  destruct (delete_payment_then_get 1 db_svc ltac:(reflexivity)) as [db1 [H1 [H2 _]]].
  exists db1. split; assumption.
Defined.

Lemma create_payment_then_get_witness :
  exists db1,
    create_payment 1 2500 "2024-05-03" db_svc = Ret (db1, mkResult None [] (Some 2)) /\
    get_payment_by_id 2 db1 = Ret (db1, mkResult None [Payment.mk 2 1 2500 "2024-05-03"] None) /\
    get_payments_by_booking 1 db1
      = Ret (db1, mkResult None [Payment.mk 1 1 2000 "2024-05-02";
                                 Payment.mk 2 1 2500 "2024-05-03"] None).
Proof.
  destruct (create_payment_then_get 1 2500 "2024-05-03" db_svc ltac:(reflexivity)
              ltac:(reflexivity) ltac:(reflexivity)
              ltac:(simpl; repeat constructor; simpl; lia))
    as [db1 [H1 [H2 H3]]].
  exists db1. split; [exact H1|]. split; [exact H2|]. exact H3.
Defined.


Lemma services_by_booking_numeric_id_witness :
  exists msg, get_services_by_booking 1 db_svc = Ret (db_svc, mkResult (Some msg) [] None).
Proof.
  apply (services_by_booking_numeric_id 1 db_svc (BookingServiceRow.mk 1 1 (SInt 1) 60 0)).
  - reflexivity.
  - vm_compute. repeat apply Forall_cons; try apply Forall_nil; simpl; lia.
  - vm_compute. left. reflexivity.
  - intros s. simpl. discriminate.
Defined.

Lemma completion_counts_witness :
  get_completed_service_count_by_booking 1 db_svc
    = Ret (db_svc, mkResult None [mkBookingServiceCompletion 1 2] None).
Proof.
  exact (proj1 (proj2 (completion_counts 1 db_svc ltac:(reflexivity)
                         ltac:(vm_compute; repeat apply Forall_cons; try apply Forall_nil; simpl; lia)))).
Defined.

Lemma create_person_then_lookup_witness :
  exists db1,
    create_person "carol" "Carol" "Chen" "carol@Example.COM" "0400 333 444" "ab12" db0
      = Ret (db1, mkResult None [] (Some 2)) /\
    get_person_by_email "carol@Example.COM" db1
      = Ret (db1, mkResult None
               [Person.mk 2 "carol" "Carol" "Chen" "carol@example.com" "0400 333 444"
                  false "ab12"] None).
Proof.
  destruct (create_person_then_lookup "carol" "Carol" "Chen" "carol@Example.COM"
              "0400 333 444" "ab12" "carol@example.com" db0
              ltac:(reflexivity) ltac:(reflexivity) ltac:(vm_compute; reflexivity))
    as [db1 [H1 [_ H3]]].
  exists db1. split; assumption.
Defined.
